(** * QuickShop payment relay: a shallow embedding and its properties

    The repository holds Express back ends for two kinds of payment.

    - [backend/server.js] (module [MoMo] below): Orange / MTN mobile-money
      payments.  A [payments] row is inserted with status ['pending'] and two
      webhook routes overwrite its status and insert an [orders] row.
    - the Stripe back end (module [Stripe] below): [toSmallestUnit],
      [POST /create-payment-intent] and the Stripe [POST /webhook], with
      JavaScript numbers as binary64 floats.
    - a second, minimal Stripe server (module [Minimal]) that only forwards
      [amount] and [currency] to Stripe.

    Supabase tables are modelled as lists of rows in insertion order, a row
    being a finite map from column names to JSON values.  Every handler is
    written as a small program over the store calls it awaits, in the order
    of the source, so that both its final effect and the intermediate stores
    can be talked about.  [run] and [serve] run one request to its response,
    every call applied; module [Interleaved] lets several webhooks take
    turns at their awaits and lets the store refuse a call. *)

From Stdlib Require Import ZArith Lia.
From Stdlib Require Import Ascii String DecimalString DecimalN DecimalPos.
From Stdlib Require Import Strings.Byte.
From Stdlib Require Import Floats.
From Stdlib Require Uint63.
From stdpp Require Import base option list gmap strings.

Open Scope Z_scope.
Open Scope string_scope.

Set Warnings "-register-all,-inexact-float".

(** ** JavaScript values *)

Module Js.

(** A JSON value as [express.json()] / [bodyParser.json()] hands it over.
    Numbers are the integers (no handler of [server.js] computes with one);
    [undefined] is the [None] of [option jsval]. *)
Inductive jsval : Type :=
| JNull
| JBool (b : bool)
| JNum (n : Z)
| JStr (s : string)
| JArr (l : list jsval)
| JObj (o : list (string * jsval)).

Fixpoint assoc (k : string) (o : list (string * jsval)) : option jsval :=
  match o with
  | [] => None
  | (k', v) :: o' => if String.eqb k' k then Some v else assoc k o'
  end.

(** [v.k] for a body that is an object or an array (what the JSON body parser
    produces); every other key of an array is [undefined] here. *)
Definition get (v : jsval) (k : string) : option jsval :=
  match v with
  | JObj o => assoc k o
  | _ => None
  end.

(** JavaScript truthiness. *)
Definition truthy (v : option jsval) : bool :=
  match v with
  | None => false
  | Some JNull => false
  | Some (JBool b) => b
  | Some (JNum n) => negb (n =? 0)%Z
  | Some (JStr s) => negb (String.eqb s "")
  | Some (JArr _) => true
  | Some (JObj _) => true
  end.

(** [a || b] *)
Definition or_else (a b : option jsval) : option jsval :=
  if truthy a then a else b.

Definition lower_ascii (c : ascii) : ascii :=
  let n := nat_of_ascii c in
  if ((65 <=? n)%nat && (n <=? 90)%nat)%bool then ascii_of_nat (n + 32) else c.

(** [String.prototype.toLowerCase], on the ASCII letters.  (No character
    outside ASCII lowercases to a letter of ['paid'], ['success'],
    ['completed'] or ['ghs'], so the comparisons made on the result are
    exact.) *)
Fixpoint toLowerCase (s : string) : string :=
  match s with
  | EmptyString => EmptyString
  | String c s' => String (lower_ascii c) (toLowerCase s')
  end.

(** [v.toLowerCase()]: only a string has the method; calling it on anything
    else raises a TypeError ([None]). *)
Definition call_toLowerCase (v : option jsval) : option string :=
  match v with
  | Some (JStr s) => Some (toLowerCase s)
  | _ => None
  end.

Definition join_comma (l : list string) : string :=
  String.concat "," l.

(** The string a template literal makes of a value: [`${v}`]. *)
Fixpoint to_string (v : jsval) : string :=
  match v with
  | JNull => "null"
  | JBool true => "true"
  | JBool false => "false"
  | JNum n => NilZero.string_of_int (Z.to_int n)
  | JStr s => s
  | JArr l =>
      join_comma
        (List.map (fun e => match e with JNull => "" | _ => to_string e end) l)
  | JObj _ => "[object Object]"
  end.

End Js.
Import Js.

(** ** The store and the programs that run on it *)

(** A table row: column name to value.  A column the insert did not name is
    absent from the map (SQL NULL). *)
Abbreviation row := (gmap string jsval).

Record store : Type := Store {
  payments : list row;
  orders : list row
}.

Definition empty_store : store := Store [] [].

(** [.eq('payment_id', id)]: the text column equals the filter string. *)
Definition has_payment_id (id : string) (r : row) : bool :=
  match r !! "payment_id" with
  | Some (JStr s) => String.eqb s id
  | _ => false
  end.

(** [.update(patch)] on one row: each named column is overwritten. *)
Definition apply_patch (patch : list (string * jsval)) (r : row) : row :=
  fold_right (fun kv acc => <[kv.1 := kv.2]> acc) r patch.

Definition update_where (id : string) (patch : list (string * jsval))
    (t : list row) : list row :=
  List.map (fun r => if has_payment_id id r then apply_patch patch r else r) t.

(** [.select('*').eq('payment_id', id).limit(1)] then [.data?.[0]]. *)
Definition select_first (id : string) (t : list row) : option row :=
  List.find (has_payment_id id) t.

(** An object literal whose [undefined] properties are dropped, as
    [JSON.stringify] does before the row reaches the table. *)
Fixpoint object_literal (fields : list (string * option jsval)) : row :=
  match fields with
  | [] => ∅
  | (k, Some v) :: rest => <[k := v]> (object_literal rest)
  | (_, None) :: rest => object_literal rest
  end.

Inductive payload : Type :=
| Text (s : string)
| Json (v : jsval).

Record response : Type := Response {
  status_code : Z;
  sent : payload
}.

(** What a handler does, one awaited store call at a time. *)
Inductive prog : Type :=
| Respond (r : response)
| Throw
| PaymentsInsert (r : row) (k : prog)
| PaymentsUpdate (id : string) (patch : list (string * jsval)) (k : prog)
| PaymentsSelect (id : string) (k : option row -> prog)
| OrdersInsert (r : row) (k : prog).

(** [try { body } catch (err) { handler }] *)
Fixpoint try_catch (body handler : prog) : prog :=
  match body with
  | Respond r => Respond r
  | Throw => handler
  | PaymentsInsert r k => PaymentsInsert r (try_catch k handler)
  | PaymentsUpdate id patch k => PaymentsUpdate id patch (try_catch k handler)
  | PaymentsSelect id k => PaymentsSelect id (fun p => try_catch (k p) handler)
  | OrdersInsert r k => OrdersInsert r (try_catch k handler)
  end.

(** One store call. *)
Definition step (p : prog) (s : store) : option (prog * store) :=
  match p with
  | Respond _ => None
  | Throw => None
  | PaymentsInsert r k => Some (k, Store (payments s ++ [r]) (orders s))
  | PaymentsUpdate id patch k =>
      Some (k, Store (update_where id patch (payments s)) (orders s))
  | PaymentsSelect id k => Some (k (select_first id (payments s)), s)
  | OrdersInsert r k => Some (k, Store (payments s) (orders s ++ [r]))
  end.

(** Run to the response: the final store and what was sent ([None] for an
    exception nobody caught). *)
Fixpoint run (p : prog) (s : store) : store * option response :=
  match p with
  | Respond r => (s, Some r)
  | Throw => (s, None)
  | PaymentsInsert r k => run k (Store (payments s ++ [r]) (orders s))
  | PaymentsUpdate id patch k =>
      run k (Store (update_where id patch (payments s)) (orders s))
  | PaymentsSelect id k => run (k (select_first id (payments s))) s
  | OrdersInsert r k => run k (Store (payments s) (orders s ++ [r]))
  end.

(** The configurations an execution goes through, the first one included. *)
Fixpoint configs (p : prog) (s : store) : list (prog * store) :=
  (p, s) ::
  match p with
  | Respond _ => []
  | Throw => []
  | PaymentsInsert r k => configs k (Store (payments s ++ [r]) (orders s))
  | PaymentsUpdate id patch k =>
      configs k (Store (update_where id patch (payments s)) (orders s))
  | PaymentsSelect id k => configs (k (select_first id (payments s))) s
  | OrdersInsert r k => configs k (Store (payments s) (orders s ++ [r]))
  end.

(** ** backend/server.js: Orange and MTN mobile money *)

Module MoMo.

Definition json_error (code : Z) (msg : string) : response :=
  Response code (Json (JObj [("error", JStr msg)])).

(** [createPaymentRecord]: one row, status ['pending'].  The store of the
    model accepts every insert, so the [if(error) throw error] branch is not
    taken. *)
Definition createPaymentRecord (payment_id provider : string)
    (amount phone name items : option jsval) (rawProviderData : option jsval)
    (k : prog) : prog :=
  PaymentsInsert
    (object_literal
       [("payment_id", Some (JStr payment_id));
        ("provider", Some (JStr provider));
        ("amount", amount);
        ("phone", phone);
        ("customer_name", name);
        ("items", items);
        ("status", Some (JStr "pending"));
        ("provider_data", or_else rawProviderData (Some JNull))])
    k.

(** [POST /api/create-payment/orange].  [payment_id] is what [makeId()]
    returned for this request. *)
Definition create_payment_orange (payment_id : string) (body : jsval) : prog :=
  try_catch
    (let amount := get body "amount" in
     let phone := get body "phone" in
     let name := get body "name" in
     let items := get body "items" in
     if (negb (truthy amount) || negb (truthy phone))%bool
     then Respond (json_error 400 "amount and phone required")
     else
       let provJson :=
         JObj [("simulated", JBool true);
               ("note", JStr "You must replace with real Orange API call")] in
       createPaymentRecord payment_id "orange" amount phone name items
         (Some provJson)
         (Respond (Response 200 (Json (JObj
            [("paymentId", JStr payment_id);
             ("status", JStr "pending");
             ("message", JStr "Payment created (simulated).");
             ("nextAction", JObj [("instructions", JStr
                "User will receive a prompt on their Orange Money app / phone to accept payment. Check the status here.")])])))))
    (Respond (json_error 500 "error")).

(** [POST /api/create-payment/mtn] *)
Definition create_payment_mtn (payment_id : string) (body : jsval) : prog :=
  try_catch
    (let amount := get body "amount" in
     let phone := get body "phone" in
     let name := get body "name" in
     let items := get body "items" in
     if (negb (truthy amount) || negb (truthy phone))%bool
     then Respond (json_error 400 "amount and phone required")
     else
       let provJson :=
         JObj [("simulated", JBool true);
               ("note", JStr "Replace with real MTN API call")] in
       createPaymentRecord payment_id "mtn" amount phone name items
         (Some provJson)
         (Respond (Response 200 (Json (JObj
            [("paymentId", JStr payment_id);
             ("status", JStr "pending");
             ("message", JStr "MTN payment created (simulated).");
             ("nextAction", JObj [("instructions", JStr
                "User will receive a prompt on their MTN MoMo to accept payment. Check status here.")])])))))
    (Respond (json_error 500 "error")).

Definition or_null (v : option jsval) : jsval :=
  match v with Some x => x | None => JNull end.

(** [GET /api/payment-status/:paymentId] *)
Definition payment_status (paymentId : string) : prog :=
  try_catch
    (PaymentsSelect paymentId (fun data =>
       match data with
       | None => Respond (json_error 404 "not found")
       | Some p =>
           Respond (Response 200 (Json (JObj
             [("status", or_null (p !! "status"));
              ("payment", JObj (map_to_list p));
              ("message",
               or_null (or_else (p !! "provider_message") (Some JNull)))])))
       end))
    (Respond (json_error 500 "error")).

(** [`eq.${paymentId}`]: the filter the client library builds. *)
Definition filter_value (paymentId : option jsval) : string :=
  match paymentId with
  | None => "undefined"
  | Some v => to_string v
  end.

(** [status === 'paid' || status === 'success' || status === 'completed'] *)
Definition paid_equivalent (status : string) : bool :=
  (String.eqb status "paid" || String.eqb status "success"
   || String.eqb status "completed")%bool.

(** The order row a webhook builds from the payment row [p]. *)
Definition order_of (p : row) : row :=
  object_literal
    [("user_email", or_else (p !! "phone") (Some (JStr "guest")));
     ("items", p !! "items");
     ("total", p !! "amount");
     ("name", or_else (p !! "customer_name") (Some (JStr "")));
     ("address", Some (JStr "Mobile money"));
     ("status", Some (JStr "pending"))].

Definition ok : response := Response 200 (Text "ok").

(** The body of both webhook routes, inside their [try]. *)
Definition webhook_try (body : jsval) : prog :=
  let paymentId :=
    or_else (or_else (get body "externalId") (get body "payment_id"))
            (get body "reference") in
  match call_toLowerCase
          (or_else (or_else (get body "status") (get body "result"))
                   (Some (JStr "pending"))) with
  | None => Throw
  | Some status =>
      let provider_message := body in
      if negb (truthy paymentId)
      then Respond (Response 400 (Text "missing id"))
      else
        PaymentsUpdate (filter_value paymentId)
          [("status", JStr status); ("provider_data", provider_message)]
          (if paid_equivalent status
           then
             PaymentsSelect (filter_value paymentId) (fun p =>
               match p with
               | Some p => OrdersInsert (order_of p) (Respond ok)
               | None => Respond ok
               end)
           else Respond ok)
  end.

(** [POST /webhook/orange] *)
Definition webhook_orange (body : jsval) : prog :=
  try_catch (webhook_try body) (Respond (Response 500 (Text "err"))).

(** [POST /webhook/mtn]: the same statements as the Orange route. *)
Definition webhook_mtn (body : jsval) : prog :=
  try_catch (webhook_try body) (Respond (Response 500 (Text "err"))).

(** The requests the server answers. *)
Inductive request : Type :=
| CreateOrange (payment_id : string) (body : jsval)
| CreateMtn (payment_id : string) (body : jsval)
| PaymentStatus (paymentId : string)
| WebhookOrange (body : jsval)
| WebhookMtn (body : jsval).

Definition handle (q : request) : prog :=
  match q with
  | CreateOrange payment_id body => create_payment_orange payment_id body
  | CreateMtn payment_id body => create_payment_mtn payment_id body
  | PaymentStatus paymentId => payment_status paymentId
  | WebhookOrange body => webhook_orange body
  | WebhookMtn body => webhook_mtn body
  end.

Definition serve (q : request) (s : store) : store * option response :=
  run (handle q) s.

(** A sequence of requests, each run to its response before the next one
    starts: the final store and the responses in order. *)
Fixpoint serve_seq (qs : list request) (s : store)
    : store * list (option response) :=
  match qs with
  | [] => (s, [])
  | q :: qs' =>
      let (s1, r) := serve q s in
      let (s2, rs) := serve_seq qs' s1 in
      (s2, r :: rs)
  end.

(** The stores a server that started with empty tables can be in. *)
Inductive reachable : store -> Prop :=
| reachable_init : reachable empty_store
| reachable_serve q s : reachable s -> reachable (serve q s).1.

(** Names for what a webhook reads off the notification: the reference
    ([paymentId]), the lowercased status token ([None] when [toLowerCase]
    raises), and the columns it overwrites. *)
Definition reference_of (body : jsval) : option jsval :=
  or_else (or_else (get body "externalId") (get body "payment_id"))
          (get body "reference").

Definition token_of (body : jsval) : option string :=
  call_toLowerCase
    (or_else (or_else (get body "status") (get body "result"))
             (Some (JStr "pending"))).

Definition webhook_patch (status : string) (body : jsval)
    : list (string * jsval) :=
  [("status", JStr status); ("provider_data", body)].

(** Does some payment row carry the notification's reference? *)
Definition known (body : jsval) (s : store) : bool :=
  existsb (has_payment_id (filter_value (reference_of body))) (payments s).

Definition is_webhook (q : request) (body : jsval) : Prop :=
  q = WebhookOrange body \/ q = WebhookMtn body.

(** The outcome of a webhook, written out by cases on what it read off the
    notification; [run_webhook_orange] and [run_webhook_mtn] below show that
    running either route gives exactly this. *)
Definition webhook_outcome (body : jsval) (s : store) : store * option response :=
  match token_of body with
  | None => (s, Some (Response 500 (Text "err")))
  | Some status =>
      if negb (truthy (reference_of body))
      then (s, Some (Response 400 (Text "missing id")))
      else
        let id := filter_value (reference_of body) in
        let ps := update_where id (webhook_patch status body) (payments s) in
        if paid_equivalent status then
          match select_first id ps with
          | Some p => (Store ps (orders s ++ [order_of p]), Some ok)
          | None => (Store ps (orders s), Some ok)
          end
        else (Store ps (orders s), Some ok)
  end.

Definition status_of (r : row) : option jsval := r !! "status".

(** The column an object literal ends up with, read off its field list. *)
Fixpoint literal_get (k : string) (fields : list (string * option jsval))
    : option jsval :=
  match fields with
  | [] => None
  | (k', Some v) :: rest => if String.eqb k' k then Some v else literal_get k rest
  | (_, None) :: rest => literal_get k rest
  end.

(** What a checkout request does to the store: nothing, or one more payments
    row, pending and without an [order_id]. *)
Definition fresh_payment (r : row) : Prop :=
  r !! "status" = Some (JStr "pending") /\ r !! "order_id" = None.

(** The status of a row is a lowercase string that is either the initial
    ['pending'] or the token of some notification. *)
Definition status_written (r : row) : Prop :=
  exists st, r !! "status" = Some (JStr st) /\ toLowerCase st = st /\
             (st = "pending" \/ exists body, token_of body = Some st).

(** Sample data. *)
Definition pay1 : row :=
  object_literal
    [("payment_id", Some (JStr "pay_1"));
     ("provider", Some (JStr "orange"));
     ("amount", Some (JNum 5000));
     ("phone", Some (JStr "620000000"));
     ("customer_name", Some (JStr "Awa"));
     ("items", Some (JArr [JStr "shirt"]));
     ("status", Some (JStr "pending"));
     ("provider_data", Some JNull)].

Definition paid_note : jsval :=
  JObj [("externalId", JStr "pay_1"); ("status", JStr "paid")].

Definition failed_note : jsval :=
  JObj [("externalId", JStr "pay_1"); ("status", JStr "failed")].

Definition success_note : jsval :=
  JObj [("externalId", JStr "pay_1"); ("status", JStr "SUCCESS")].

Definition stray_note : jsval :=
  JObj [("externalId", JStr "pay_404"); ("status", JStr "paid")].

(** A provider's notice that the payment is still to be accepted. *)
Definition pending_note : jsval :=
  JObj [("externalId", JStr "pay_1"); ("status", JStr "PENDING")].


Definition checkout1 : jsval :=
  JObj [("amount", JNum 5000); ("phone", JStr "620000000");
        ("name", JStr "Awa"); ("items", JArr [JStr "shirt"])].

(** The four status values of the specification's data model. *)
Definition spec_status_enum : list string := ["pending"; "paid"; "failed"; "unknown"].

Definition spec_status_in_enum (r : row) : bool :=
  match r !! "status" with
  | Some (JStr st) => existsb (String.eqb st) spec_status_enum
  | _ => false
  end.

End MoMo.

(** ** The Stripe back end: checkout and the Stripe webhook *)

Module Stripe.

(** JavaScript numbers are IEEE 754 binary64 values: Rocq's primitive
    [float], with its own [+], [*] and [/].  A numeric property of a cart
    line is missing, or a number.  (A price or quantity sent as a string
    goes through [parseFloat] / [Number] in the source; such carts are
    outside this model.) *)
Inductive num_field : Type :=
| Absent
| Num (x : float).

Record line_item : Type := LineItem {
  price : num_field;
  quantity : num_field
}.

(** The [cart] property of the request body. *)
Inductive cart_field : Type :=
| CartUndefined
| CartNotArray
| CartArray (items : list line_item).

Record checkout_body : Type := CheckoutBody {
  cart : cart_field;
  name : option string;
  phone : option string;
  address : option string;
  email : option string;
  currency : option string
}.

Record metadata : Type := Metadata {
  m_cart : string;
  m_name : string;
  m_phone : string;
  m_address : string;
  m_email : string;
  m_currency : string
}.

(** The argument of [stripe.paymentIntents.create]. *)
Record intent_params : Type := IntentParams {
  ip_amount : float;
  ip_currency : string;
  ip_metadata : metadata;
  ip_receipt_email : option string
}.

Inductive intent_result : Type :=
| Created (client_secret id : string)
| Rejected (message : string).

(** A parsed Stripe event, as far as the webhook reads it: [event.type] and
    [event.data.object] ([None] when it is missing), with the [metadata]
    strings of the payment intent next to its [id] and [amount]. *)
Record payment_intent : Type := PaymentIntent {
  pi_id : string;
  pi_amount : float;
  pi_cart : option string;
  pi_name : option string;
  pi_phone : option string;
  pi_address : option string;
  pi_email : option string;
  pi_currency : option string
}.

Record event : Type := Event {
  ev_type : string;
  ev_object : option payment_intent
}.

Record order : Type := Order {
  user_email : string;
  items : list line_item;
  total : float;
  o_name : string;
  o_phone : string;
  o_address : string;
  o_status : string;
  stripe_payment_intent : string
}.

(** A number that counts as false: [0], [-0] or [NaN]. *)
Definition falsy (x : float) : bool :=
  (PrimFloat.eqb x 0 || PrimFloat.is_nan x)%bool.

(** [Math.round]: the integer nearest to [x], a tie going to the one
    towards plus infinity; [NaN], the infinities and the zeros are returned
    as they are, and a negative [x] that rounds to zero gives [-0].  The
    double [x] is [m * 2^e] up to its sign: it is an integer already when
    [0 <= e], and otherwise its integer part and the fraction left of it
    are read off the mantissa [m]. *)
Definition Math_round (x : float) : float :=
  match Prim2SF x with
  | S754_finite negative m e =>
      if (0 <=? e)%Z then x
      else
        let k := (- e)%Z in
        let whole := Z.shiftr (Z.pos m) k in
        let fraction := Z.land (Z.pos m) (Z.ones k) in
        let half := Z.shiftl 1 (k - 1) in
        if negative
        then
          PrimFloat.opp
            (PrimFloat.of_uint63
               (Uint63.of_Z (if (fraction <=? half)%Z then whole else whole + 1)))
        else
          PrimFloat.of_uint63
            (Uint63.of_Z (if (half <=? fraction)%Z then whole + 1 else whole))
  | _ => x
  end.

(** [s || d] for a string that may be undefined. *)
Definition str_or (s : option string) (d : string) : string :=
  match s with
  | Some x => if String.eqb x "" then d else x
  | None => d
  end.

(** [i.price || 0] for a number-valued price. *)
Definition price_of (i : line_item) : float :=
  match price i with
  | Num x => if falsy x then 0%float else x
  | Absent => 0%float
  end.

(** [i.quantity ? Number(i.quantity) : 1] *)
Definition qty_of (i : line_item) : float :=
  match quantity i with
  | Num x => if falsy x then 1%float else x
  | Absent => 1%float
  end.

(** [cart.reduce((s, i) => s + price * qty, 0)] *)
Definition totalUSD (items : list line_item) : float :=
  fold_left (fun s i => (s + price_of i * qty_of i)%float) items 0%float.

Section Backend.

(** Configuration read from the environment. *)
Variable GHS_RATE : float.
Variable STRIPE_WEBHOOK_SECRET : option string.

(** What the handlers call and this repository does not define: the Stripe
    client, [JSON.stringify] / [JSON.parse], and whether the [orders] table
    takes a row. *)
Variable paymentIntents_create : intent_params -> intent_result.
Variable signature_valid : string -> option string -> string -> bool.
Variable JSON_parse_event : string -> option event.
Variable JSON_stringify_cart : list line_item -> string.
Variable JSON_parse_cart : string -> option (list line_item).
Variable orders_insert_ok : list order -> order -> bool.

Definition toSmallestUnit (amount : float) (currency : string) : float :=
  if String.eqb (toLowerCase currency) "ghs"
  then Math_round (amount * GHS_RATE * 100)%float
  else Math_round (amount * 100)%float.

(** [POST /create-payment-intent]: the response and the calls made to
    Stripe. *)
Definition create_payment_intent (body : checkout_body)
    : response * list intent_params :=
  let cart := match cart body with CartUndefined => CartArray [] | c => c end in
  let name := match name body with Some x => x | None => "" end in
  let phone := match phone body with Some x => x | None => "" end in
  let address := match address body with Some x => x | None => "" end in
  let email := match email body with Some x => x | None => "" end in
  let currency := match currency body with Some x => x | None => "usd" end in
  match cart with
  | CartUndefined | CartNotArray | CartArray [] =>
      (MoMo.json_error 400 "Cart is empty", [])
  | CartArray cart =>
      let amount := toSmallestUnit (totalUSD cart) currency in
      let metadata :=
        Metadata (JSON_stringify_cart cart) name phone address email
                 (str_or (Some currency) "usd") in
      let params :=
        IntentParams amount
          (if String.eqb currency "ghs" then "ghs" else "usd")
          metadata
          (if String.eqb email "" then None else Some email) in
      match paymentIntents_create params with
      | Created client_secret id =>
          (Response 200 (Json (JObj [("clientSecret", JStr client_secret);
                                     ("paymentIntentId", JStr id)])),
           [params])
      | Rejected message =>
          (MoMo.json_error 500 (str_or (Some message) "Server error"), [params])
      end
  end.

(** [!STRIPE_WEBHOOK_SECRET] *)
Definition secret_missing : bool :=
  match STRIPE_WEBHOOK_SECRET with
  | Some k => String.eqb k ""
  | None => true
  end.

(** [stripe.webhooks.constructEvent(payload, sig, secret)]: the header is
    checked against the payload first, and only a payload that verifies is
    parsed.  The client works on the payload as a string; a payload that is
    not one is converted the way JavaScript does. *)
Definition constructEvent (payload : jsval) (sig : option string)
    (secret : string) : option event :=
  if signature_valid (to_string payload) sig secret
  then JSON_parse_event (to_string payload)
  else None.

Definition received : response :=
  Response 200 (Json (JObj [("received", JBool true)])).

(** The second [try] of the webhook: what is done with an event. *)
Definition handle_event (e : event) (orders : list order)
    : list order * response :=
  if String.eqb (ev_type e) "payment_intent.succeeded" then
    match ev_object e with
    | None => (orders, Response 500 (Text "Webhook handler error"))
    | Some paymentIntent =>
        let parsed :=
          match pi_cart paymentIntent with
          | Some c => if String.eqb c "" then Some [] else JSON_parse_cart c
          | None => Some []
          end in
        match parsed with
        | None => (orders, Response 500 (Text "Webhook handler error"))
        | Some cart =>
            let currency := str_or (pi_currency paymentIntent) "usd" in
            let amountSmallest := pi_amount paymentIntent in
            let totalMajor :=
              if String.eqb currency "ghs"
              then ((amountSmallest / 100) / GHS_RATE)%float
              else (amountSmallest / 100)%float in
            let o :=
              Order (str_or (pi_email paymentIntent) "guest") cart totalMajor
                    (str_or (pi_name paymentIntent) "")
                    (str_or (pi_phone paymentIntent) "")
                    (str_or (pi_address paymentIntent) "")
                    "paid" (pi_id paymentIntent) in
            if orders_insert_ok orders o
            then ((orders ++ [o])%list, received)
            else (orders, received)
        end
    end
  else (orders, received).

(** [POST /webhook].  [app.use(express.json())] is installed for every
    route before this one, so the route's own [bodyParser.raw] finds the
    body already parsed and leaves it: [req.body] is the JSON value that
    was sent (an object or an array; the empty object when there was no
    JSON body), not the raw bytes.  [body] is that value, and
    [req.body.toString()] its JavaScript string conversion.  (The 400 texts
    are sent without the library's error message appended.) *)
Definition webhook (body : jsval) (sig : option string) (orders : list order)
    : list order * response :=
  if secret_missing then
    match JSON_parse_event (to_string body) with
    | None => (orders, Response 400 (Text "Webhook error"))
    | Some e => handle_event e orders
    end
  else
    match constructEvent body sig (str_or STRIPE_WEBHOOK_SECRET "") with
    | None => (orders, Response 400 (Text "Webhook Error"))
    | Some e => handle_event e orders
    end.

End Backend.

(** The cart of the specification's amount example. *)
Definition example_cart : list line_item :=
  [LineItem (Num 50) (Num 1); LineItem (Num 10) (Num 2)].

Definition body_of (items : list line_item) (currency : option string)
    : checkout_body :=
  CheckoutBody (CartArray items) (Some "Customer") (Some "123")
               (Some "Street") (Some "customer@example.com") currency.

(** Stand-ins for the outside world, to run the handlers on examples. *)
Definition stub_create (p : intent_params) : intent_result :=
  Created "pi_1_secret" "pi_1".

Definition stub_stringify (items : list line_item) : string := "[cart]".

Definition stub_parse_cart (c : string) : option (list line_item) :=
  Some example_cart.

Definition succeeded_event : event :=
  Event "payment_intent.succeeded"
        (Some (PaymentIntent "pi_1" 7000 (Some "[cart]") (Some "Customer")
                 (Some "123") (Some "Street") (Some "customer@example.com")
                 (Some "usd"))).

(** A stand-in for [JSON.parse] that knows one text, ["event"], and like
    [JSON.parse] rejects ["[object Object]"]. *)
Definition stub_parse_event (text : string) : option event :=
  if String.eqb text "event" then Some succeeded_event else None.

Definition stub_no_signature (payload : string) (sig : option string)
    (secret : string) : bool := false.

Definition stub_insert_ok (orders : list order) (o : order) : bool := true.

(** *** The specification's wording, for comparison with the code *)




Definition is_ghs (currency : option string) : bool :=
  match currency with
  | Some c => String.eqb (toLowerCase c) "ghs"
  | None => false
  end.

(** A line the specification's validation accepts: a positive price and a
    quantity that is positive or left out. *)
Definition spec_line_ok (i : line_item) : bool :=
  match price i with
  | Num p =>
      (PrimFloat.ltb 0 p &&
       match quantity i with
       | Num q => PrimFloat.ltb 0 q
       | Absent => true
       end)%bool
  | Absent => false
  end.

Definition spec_cart_rejected (c : cart_field) : bool :=
  match c with
  | CartArray (i :: items) => negb (forallb spec_line_ok (i :: items))
  | _ => true
  end.

(** What the code rejects: no cart, a cart that is not an array, or an empty
    one. *)
Definition cart_empty (c : cart_field) : bool :=
  match c with
  | CartArray (_ :: _) => false
  | _ => true
  end.

Definition client_error (r : response) : bool :=
  ((400 <=? status_code r)%Z && (status_code r <? 500)%Z)%bool.

(** A number that is not below zero: zero, positive, or [NaN]. *)
Definition not_negative (x : float) : Prop := PrimFloat.ltb x 0 = false.

End Stripe.
(** ** More of the code: identifiers, the minimal Stripe server, runs *)

Module Ids.

(** One hexadecimal digit, lowercase as [Buffer.toString('hex')] prints it. *)
Definition hex_digit (n : N) : ascii :=
  match String.get (N.to_nat n) "0123456789abcdef" with
  | Some c => c
  | None => "0"%char
  end.

Definition hex_byte (b : byte) : string :=
  let n := Byte.to_N b in
  String (hex_digit (n / 16)) (String (hex_digit (n mod 16)) EmptyString).

(** [makeId()] of [server.js]:
    ['pay_' + Date.now() + '_' + crypto.randomBytes(3).toString('hex')], as a
    function of the clock reading (milliseconds, a natural number) and of the
    three random bytes. *)
Definition makeId (now : N) (random : byte * byte * byte) : string :=
  "pay_" ++ NilZero.string_of_uint (N.to_uint now) ++ "_"
  ++ hex_byte random.1.1 ++ hex_byte random.1.2 ++ hex_byte random.2.

(** Reading two hexadecimal digits back, used to show that [hex_byte] loses
    nothing. *)
Definition hex_value (c : ascii) : option N :=
  match String.index 0 (String c EmptyString) "0123456789abcdef" with
  | Some i => Some (N.of_nat i)
  | None => None
  end.

Definition unhex_byte (s : string) : option byte :=
  match s with
  | String h (String l EmptyString) =>
      match hex_value h, hex_value l with
      | Some a, Some b => Byte.of_N (16 * a + b)
      | _, _ => None
      end
  | _ => None
  end.

End Ids.

(** The minimal Stripe server: [POST /create-payment-intent] with [amount]
    and [currency] taken from the body as they are. *)
Module Minimal.

(** The handler, for a given Stripe client: the response and the
    ([amount], [currency]) pairs passed to [stripe.paymentIntents.create]. *)
Definition create_payment_intent
    (paymentIntents_create : jsval -> jsval -> Stripe.intent_result)
    (body : jsval) : response * list (jsval * jsval) :=
  let amount := get body "amount" in
  let currency := get body "currency" in
  if (negb (truthy amount) || negb (truthy currency))%bool
  then (MoMo.json_error 400 "Missing amount or currency", [])
  else
    let call := (MoMo.or_null amount, MoMo.or_null currency) in
    match paymentIntents_create call.1 call.2 with
    | Stripe.Created client_secret _ =>
        (Response 200 (Json (JObj [("clientSecret", JStr client_secret)])),
         [call])
    | Stripe.Rejected message => (MoMo.json_error 500 message, [call])
    end.

End Minimal.

(** Ways to look at a run of the servers. *)
Module Runs.

(** A property of the JSON object a handler answered with. *)
Definition answer_field (k : string) (r : option response) : option jsval :=
  match r with
  | Some (Response _ (Json v)) => get v k
  | _ => None
  end.

Definition answer_code (r : option response) : option Z :=
  match r with
  | Some r => Some (status_code r)
  | None => None
  end.

(** What a webhook leaves in the payments table, and the order rows it
    appends, as functions of the table it found ([webhook_effect] below
    shows that the handlers do exactly this). *)
Definition webhook_rows (body : jsval) (t : list row) : list row :=
  match MoMo.token_of body with
  | Some st =>
      if truthy (MoMo.reference_of body)
      then update_where (MoMo.filter_value (MoMo.reference_of body))
                        (MoMo.webhook_patch st body) t
      else t
  | None => t
  end.

Definition webhook_orders (body : jsval) (t : list row) : list row :=
  match MoMo.token_of body with
  | Some st =>
      if (truthy (MoMo.reference_of body) && MoMo.paid_equivalent st)%bool
      then
        match select_first (MoMo.filter_value (MoMo.reference_of body)) t with
        | Some p => [MoMo.order_of (apply_patch (MoMo.webhook_patch st body) p)]
        | None => []
        end
      else []
  | None => []
  end.

End Runs.

(** Requests in flight together.  A handler gives way at every [await], so
    the store calls of several requests are applied in any order that keeps
    each request's own calls in sequence; and a call the store refuses
    changes nothing.  The requests in flight here are webhooks: they do not
    look at the result of their update and of their insert (server.js 176
    and 182) and read [.data?.[0]] of their select (180), which is
    [undefined] when the select is refused, so a webhook goes on after a
    refused call as after an applied one that found nothing. *)
Module Interleaved.

Inductive move : Type :=
| Apply (i : nat)
| Refuse (i : nat).

(** Where a webhook goes on after the store refused the call it awaits. *)
Definition refused (p : prog) : option prog :=
  match p with
  | PaymentsUpdate _ _ k => Some k
  | PaymentsSelect _ k => Some (k None)
  | OrdersInsert _ k => Some k
  | _ => None
  end.

(** One move: the store applies, or refuses, the call request [i] awaits.
    A request that has answered makes no further move. *)
Definition advance (m : move) (pool : list prog) (s : store)
    : list prog * store :=
  match m with
  | Apply i =>
      match pool !! i with
      | Some p =>
          match step p s with
          | Some (p', s') => (<[i := p']> pool, s')
          | None => (pool, s)
          end
      | None => (pool, s)
      end
  | Refuse i =>
      match pool !! i with
      | Some p =>
          match refused p with
          | Some p' => (<[i := p']> pool, s)
          | None => (pool, s)
          end
      | None => (pool, s)
      end
  end.

Fixpoint play (ms : list move) (pool : list prog) (s : store)
    : list prog * store :=
  match ms with
  | [] => (pool, s)
  | m :: ms' => play ms' (advance m pool s).1 (advance m pool s).2
  end.

(** The calls the store applied along a schedule, each with the store it was
    applied to. *)
Fixpoint applied (ms : list move) (pool : list prog) (s : store)
    : list (prog * store) :=
  match ms with
  | [] => []
  | m :: ms' =>
      match m with
      | Apply i =>
          match pool !! i with
          | Some p => [(p, s)]
          | None => []
          end
      | Refuse _ => []
      end ++ applied ms' (advance m pool s).1 (advance m pool s).2
  end.

(** The webhooks for the notifications [bodies], none of them started. *)
Definition in_flight (bodies : list jsval) : list prog :=
  List.map MoMo.webhook_orange bodies.

Definition pending_row (id : string) (r : row) : bool :=
  (has_payment_id id r &&
   match r !! "status" with
   | Some (JStr st) => String.eqb st "pending"
   | _ => false
   end)%bool.

(** An insert into [orders] applied while a payment row carrying [id] is
    pending. *)
Definition inserts_while_pending (id : string) (c : prog * store) : bool :=
  match c.1 with
  | OrdersInsert _ _ => existsb (pending_row id) (payments c.2)
  | _ => false
  end.

End Interleaved.
(** * Properties *)

Import MoMo Interleaved.

(** ** Lowercasing *)

Lemma lower_ascii_idem (c : ascii) : lower_ascii (lower_ascii c) = lower_ascii c.
Proof. destruct c as [[] [] [] [] [] [] [] []]; reflexivity. Qed.

Lemma toLowerCase_idem (s : string) : toLowerCase (toLowerCase s) = toLowerCase s.
Proof.
  induction s as [|c s IH]; simpl; [reflexivity|].
  now rewrite lower_ascii_idem, IH.
Qed.

(** ** The payments table under a webhook's update *)

Section Tables.

Variables (st : string) (body : jsval).

Lemma patch_lookup_status (r : row) :
  apply_patch (webhook_patch st body) r !! "status" = Some (JStr st).
Proof. unfold apply_patch, webhook_patch; simpl. now rewrite lookup_insert_eq. Qed.

Lemma patch_lookup_provider_data (r : row) :
  apply_patch (webhook_patch st body) r !! "provider_data" = Some body.
Proof.
  unfold apply_patch, webhook_patch; simpl.
  rewrite lookup_insert_ne by discriminate. now rewrite lookup_insert_eq.
Qed.

Lemma patch_lookup_other (r : row) (c : string) :
  c <> "status" -> c <> "provider_data" ->
  apply_patch (webhook_patch st body) r !! c = r !! c.
Proof.
  intros H1 H2. unfold apply_patch, webhook_patch; simpl.
  rewrite !lookup_insert_ne by congruence. reflexivity.
Qed.

Lemma patch_has_payment_id (id : string) (r : row) :
  has_payment_id id (apply_patch (webhook_patch st body) r) = has_payment_id id r.
Proof.
  unfold has_payment_id. now rewrite patch_lookup_other by discriminate.
Qed.

Lemma update_where_length (id : string) (t : list row) :
  length (update_where id (webhook_patch st body) t) = length t.
Proof. unfold update_where. apply length_map. Qed.

Lemma update_where_lookup (id : string) (t : list row) (i : nat) :
  update_where id (webhook_patch st body) t !! i =
  (fun r => if has_payment_id id r
            then apply_patch (webhook_patch st body) r else r) <$> t !! i.
Proof.
  unfold update_where. revert i.
  induction t as [|r t IH]; intros [|i]; simpl; auto.
Qed.

Lemma select_first_update (id : string) (t : list row) :
  select_first id (update_where id (webhook_patch st body) t) =
  apply_patch (webhook_patch st body) <$> select_first id t.
Proof.
  unfold select_first, update_where.
  induction t as [|r t IH]; cbn [List.find List.map]; [reflexivity|].
  destruct (has_payment_id id r) eqn:E.
  - now rewrite patch_has_payment_id, E.
  - now rewrite E.
Qed.

Lemma update_where_unknown (id : string) (t : list row) :
  existsb (has_payment_id id) t = false ->
  update_where id (webhook_patch st body) t = t.
Proof.
  unfold update_where.
  induction t as [|r t IH]; cbn [List.map existsb]; [reflexivity|].
  intros [E1 E2]%orb_false_iff. rewrite E1. f_equal. auto.
Qed.

End Tables.

Lemma select_first_known (id : string) (t : list row) :
  existsb (has_payment_id id) t = true ->
  exists p, select_first id t = Some p /\ has_payment_id id p = true /\ p ∈ t.
Proof.
  unfold select_first.
  induction t as [|r t IH]; simpl; [discriminate|].
  destruct (has_payment_id id r) eqn:E.
  - intros _. exists r. repeat split; auto. apply list_elem_of_here.
  - simpl. intros H. destruct (IH H) as (p & ? & ? & ?).
    exists p. repeat split; auto. now apply list_elem_of_further.
Qed.

Lemma select_first_unknown (id : string) (t : list row) :
  existsb (has_payment_id id) t = false -> select_first id t = None.
Proof.
  unfold select_first.
  induction t as [|r t IH]; simpl; [reflexivity|].
  intros [E1 E2]%orb_false_iff. rewrite E1. auto.
Qed.

(** ** What one webhook request does *)

Lemma run_webhook_orange (body : jsval) (s : store) :
  run (webhook_orange body) s = webhook_outcome body s.
Proof.
  unfold webhook_orange, webhook_try, webhook_outcome, token_of, reference_of.
  destruct s as [ps os].
  destruct (call_toLowerCase _) as [status|]; simpl; [|reflexivity].
  destruct (truthy _); simpl; [|reflexivity].
  destruct (paid_equivalent status); simpl; [|reflexivity].
  destruct (select_first _ _); reflexivity.
Qed.

Lemma run_webhook_mtn (body : jsval) (s : store) :
  run (webhook_mtn body) s = webhook_outcome body s.
Proof. exact (run_webhook_orange body s). Qed.

Lemma serve_webhook (q : request) (body : jsval) (s : store) :
  is_webhook q body -> serve q s = webhook_outcome body s.
Proof.
  intros [-> | ->]; unfold serve; simpl.
  - apply run_webhook_orange.
  - apply run_webhook_mtn.
Qed.

Lemma known_after_update (id id' : string) (st : string) (body : jsval) (t : list row) :
  existsb (has_payment_id id') (update_where id (webhook_patch st body) t) =
  existsb (has_payment_id id') t.
Proof.
  unfold update_where.
  induction t as [|r t IH]; cbn [List.map existsb]; [reflexivity|].
  rewrite IH. f_equal.
  destruct (has_payment_id id r); [apply patch_has_payment_id | reflexivity].
Qed.

Lemma updated_rows_carry_token (id st : string) (body : jsval) (t : list row) (r : row) :
  r ∈ update_where id (webhook_patch st body) t ->
  has_payment_id id r = true ->
  r !! "status" = Some (JStr st).
Proof.
  unfold update_where. rewrite list_elem_of_In, in_map_iff.
  intros (r0 & <- & _). destruct (has_payment_id id r0) eqn:E.
  - intros _. apply patch_lookup_status.
  - congruence.
Qed.

Lemma paid_equivalent_spec (st : string) :
  paid_equivalent st = true <-> st = "paid" \/ st = "success" \/ st = "completed".
Proof.
  unfold paid_equivalent. rewrite !orb_true_iff, !String.eqb_eq. tauto.
Qed.

(** A correlated paid-equivalent notification: the payments table gets the
    update and the orders table one more row. *)
Lemma webhook_outcome_paid (body : jsval) (st : string) (s : store) :
  token_of body = Some st -> paid_equivalent st = true ->
  truthy (reference_of body) = true -> known body s = true ->
  exists p,
    select_first (filter_value (reference_of body)) (payments s) = Some p /\
    webhook_outcome body s =
    (Store (update_where (filter_value (reference_of body))
                         (webhook_patch st body) (payments s))
           (orders s ++ [order_of (apply_patch (webhook_patch st body) p)]),
     Some ok).
Proof.
  intros Ht Hp Hr Hk. unfold known in Hk.
  destruct (select_first_known _ _ Hk) as (p & Hsel & _ & _).
  exists p. split; [exact Hsel|].
  unfold webhook_outcome. rewrite Ht, Hr, Hp. cbn [negb].
  cbv zeta. now rewrite select_first_update, Hsel.
Qed.

(** Any other notification that names a reference: the update alone. *)
Lemma webhook_outcome_not_paid (body : jsval) (st : string) (s : store) :
  token_of body = Some st -> paid_equivalent st = false ->
  truthy (reference_of body) = true ->
  webhook_outcome body s =
  (Store (update_where (filter_value (reference_of body))
                       (webhook_patch st body) (payments s))
         (orders s),
   Some ok).
Proof.
  intros Ht Hp Hr. unfold webhook_outcome. now rewrite Ht, Hr, Hp.
Qed.

(** A notification whose reference no row carries leaves both tables as they
    were. *)
Lemma webhook_outcome_unknown (body : jsval) (s : store) :
  known body s = false -> (webhook_outcome body s).1 = s.
Proof.
  intros Hk. unfold known in Hk. unfold webhook_outcome.
  destruct (token_of body) as [st|]; [|reflexivity].
  destruct (truthy (reference_of body)); [|reflexivity].
  cbn [negb]. cbv zeta.
  rewrite (update_where_unknown _ _ _ _ Hk), (select_first_unknown _ _ Hk).
  destruct s; destruct (paid_equivalent st); reflexivity.
Qed.

Lemma serve_seq_replicate_S (n : nat) (q : request) (s : store) :
  serve_seq (replicate (S n) q) s =
  ((serve_seq (replicate n q) (serve q s).1).1,
   (serve q s).2 :: (serve_seq (replicate n q) (serve q s).1).2).
Proof.
  cbn [replicate serve_seq].
  destruct (serve q s) as [s1 r]. cbn [fst snd].
  destruct (serve_seq (replicate n q) s1) as [s2 rs]. reflexivity.
Qed.

(** ** C1: replaying a paid notification *)

(** C1, as the code has it: for a payment the ledger knows, the same
    paid-equivalent notification applied [n] times through either webhook is
    answered [200 ok] every time, leaves the payment rows in place with the
    notification's token as their status, and appends one order row per
    application: [n] orders, not one. *)
Theorem paid_replay_one_order_each (n : nat) (q : request) (body : jsval)
    (st : string) (s : store) :
  is_webhook q body ->
  token_of body = Some st -> paid_equivalent st = true ->
  truthy (reference_of body) = true ->
  known body s = true ->
  (serve_seq (replicate n q) s).2 = replicate n (Some ok) /\
  length (orders (serve_seq (replicate n q) s).1) = (length (orders s) + n)%nat /\
  length (payments (serve_seq (replicate n q) s).1) = length (payments s) /\
  ((1 <= n)%nat ->
   forall r, r ∈ payments (serve_seq (replicate n q) s).1 ->
     has_payment_id (filter_value (reference_of body)) r = true ->
     r !! "status" = Some (JStr st)).
Proof.
  intros Hq Ht Hp Hr. revert s.
  induction n as [|n IH]; intros s Hk.
  - cbn. repeat split; try lia.
  - rewrite serve_seq_replicate_S. cbn [fst snd].
    rewrite (serve_webhook q body s Hq).
    destruct (webhook_outcome_paid body st s Ht Hp Hr Hk) as (p & _ & ->).
    cbn [fst snd].
    set (s1 := Store _ _).
    assert (Hk1 : known body s1 = true).
    { unfold known, s1. cbn [payments]. now rewrite known_after_update. }
    destruct (IH s1 Hk1) as (Hrs & Hos & Hps & Hst).
    split; [now rewrite Hrs|].
    split.
    { rewrite Hos. unfold s1. cbn [orders]. rewrite length_app. cbn. lia. }
    split.
    { rewrite Hps. unfold s1. cbn [payments]. apply update_where_length. }
    intros _ r Hin Hid.
    destruct n as [|n'].
    + cbn in Hin. unfold s1 in Hin. cbn [payments] in Hin.
      eapply updated_rows_carry_token; eauto.
    + apply Hst; auto. lia.
Qed.

Lemma paid_replay_one_order_each_witness :
  (serve_seq (replicate 3 (WebhookOrange paid_note)) (Store [pay1] [])).2 =
    replicate 3 (Some ok) /\
  length (orders (serve_seq (replicate 3 (WebhookOrange paid_note))
                            (Store [pay1] [])).1) = 3%nat.
Proof.
  destruct (paid_replay_one_order_each 3 (WebhookOrange paid_note) paid_note
              "paid" (Store [pay1] [])) as (H1 & H2 & _).
  - left; reflexivity.
  - reflexivity.
  - reflexivity.
  - reflexivity.
  - reflexivity.
  - split; [exact H1 | exact H2].
Defined.

(** C1 as stated fails: two deliveries of the same paid notification for
    [pay_1] leave two order rows. *)
Lemma paid_replay_two_orders :
  known paid_note (Store [pay1] []) = true /\
  (serve_seq [WebhookOrange paid_note; WebhookOrange paid_note]
             (Store [pay1] [])).2 = [Some ok; Some ok] /\
  length (orders (serve_seq [WebhookOrange paid_note; WebhookOrange paid_note]
                            (Store [pay1] [])).1) = 2%nat /\
  length (orders (serve_seq [WebhookOrange paid_note; WebhookOrange paid_note]
                            (Store [pay1] [])).1) <> 1%nat.
Proof. repeat split; try reflexivity. vm_compute. discriminate. Qed.

(** ** Rows written by the checkout routes *)

Lemma object_literal_lookup (k : string) (fields : list (string * option jsval)) :
  object_literal fields !! k = literal_get k fields.
Proof.
  induction fields as [|[k' [v|]] rest IH]; cbn [object_literal literal_get].
  - apply lookup_empty.
  - destruct (String.eqb_spec k' k) as [->|Hne].
    + apply lookup_insert_eq.
    + now rewrite lookup_insert_ne.
  - exact IH.
Qed.

Lemma createPaymentRecord_row (payment_id provider : string)
    (amount phone name items raw : option jsval) (k : prog) :
  exists r, createPaymentRecord payment_id provider amount phone name items raw k
            = PaymentsInsert r k /\ fresh_payment r.
Proof.
  unfold createPaymentRecord. eexists. split; [reflexivity|].
  unfold fresh_payment. rewrite !object_literal_lookup.
  destruct amount, phone, name, items; split; cbn;
    destruct (or_else raw (Some JNull)); reflexivity.
Qed.

Lemma serve_create (q : request) (s : store) :
  (exists pid body, q = CreateOrange pid body \/ q = CreateMtn pid body) ->
  orders (serve q s).1 = orders s /\
  (payments (serve q s).1 = payments s \/
   exists r, payments (serve q s).1 = (payments s ++ [r])%list /\ fresh_payment r).
Proof.
  intros (pid & body & [-> | ->]); unfold serve; cbn [handle];
    unfold create_payment_orange, create_payment_mtn;
    (destruct (negb (truthy (get body "amount")) || negb (truthy (get body "phone")))%bool;
     [cbn; auto|]);
    match goal with
    | |- context [createPaymentRecord ?a ?b ?c ?d ?e ?f ?g ?k] =>
        destruct (createPaymentRecord_row a b c d e f g k) as (r & -> & Hr)
    end; cbn; split; eauto.
Qed.

Lemma serve_payment_status (paymentId : string) (s : store) :
  (serve (PaymentStatus paymentId) s).1 = s.
Proof.
  unfold serve; cbn. destruct (select_first paymentId (payments s)); reflexivity.
Qed.

Lemma request_cases (q : request) :
  (exists pid body, q = CreateOrange pid body \/ q = CreateMtn pid body) \/
  (exists paymentId, q = PaymentStatus paymentId) \/
  (exists body, is_webhook q body).
Proof.
  destruct q; unfold is_webhook; eauto 6.
Qed.

(** ** C2: notifications for a finalized payment *)

(** C2, as the code has it: when a payment row is already [paid] or [failed],
    a further notification for its payment_id stores the raw payload in
    [provider_data] and overwrites [status] with the notification's lowercased
    token; every other column of the row (an [order_id] among them) stays as
    it was, and an order row is inserted again exactly when the token is
    paid-equivalent. *)
Theorem finalized_payment_is_overwritten (q : request) (body : jsval)
    (st : string) (s : store) (i : nat) (r : row) :
  is_webhook q body ->
  payments s !! i = Some r ->
  r !! "status" = Some (JStr "paid") \/ r !! "status" = Some (JStr "failed") ->
  has_payment_id (filter_value (reference_of body)) r = true ->
  truthy (reference_of body) = true ->
  token_of body = Some st ->
  exists r',
    payments (serve q s).1 !! i = Some r' /\
    r' !! "provider_data" = Some body /\
    r' !! "status" = Some (JStr st) /\
    (forall c, c <> "status" -> c <> "provider_data" -> r' !! c = r !! c) /\
    length (orders (serve q s).1) =
      (length (orders s) + if paid_equivalent st then 1 else 0)%nat.
Proof.
  intros Hq Hi _ Hid Hr Ht.
  rewrite (serve_webhook q body s Hq).
  exists (apply_patch (webhook_patch st body) r).
  assert (Hk : known body s = true).
  { unfold known. apply existsb_exists. exists r. split; [|exact Hid].
    apply list_elem_of_In. eapply list_elem_of_lookup_2; eauto. }
  assert (Hrow : forall os : list row,
             payments (Store (update_where (filter_value (reference_of body))
                                (webhook_patch st body) (payments s)) os) !! i
             = Some (apply_patch (webhook_patch st body) r)).
  { intros os. cbn [payments]. rewrite update_where_lookup, Hi. cbn.
    now rewrite Hid. }
  destruct (paid_equivalent st) eqn:Hp.
  - destruct (webhook_outcome_paid body st s Ht Hp Hr Hk) as (p & _ & ->).
    cbn [fst]. split; [apply Hrow|].
    split; [apply patch_lookup_provider_data|].
    split; [apply patch_lookup_status|].
    split; [intros; now apply patch_lookup_other|].
    cbn [orders]. rewrite length_app. reflexivity.
  - rewrite (webhook_outcome_not_paid body st s Ht Hp Hr).
    cbn [fst]. split; [apply Hrow|].
    split; [apply patch_lookup_provider_data|].
    split; [apply patch_lookup_status|].
    split; [intros; now apply patch_lookup_other|].
    cbn [orders]. lia.
Qed.

Lemma finalized_payment_is_overwritten_witness :
  exists r',
    payments (serve (WebhookMtn failed_note)
                    (Store [<["status" := JStr "paid"]> pay1] [])).1 !! 0%nat
      = Some r' /\
    r' !! "status" = Some (JStr "failed").
Proof.
  destruct (finalized_payment_is_overwritten (WebhookMtn failed_note) failed_note
              "failed" (Store [<["status" := JStr "paid"]> pay1] []) 0
              (<["status" := JStr "paid"]> pay1)) as (r' & H1 & _ & H3 & _).
  - right; reflexivity.
  - reflexivity.
  - left; reflexivity.
  - reflexivity.
  - reflexivity.
  - reflexivity.
  - exists r'. split; [exact H1 | exact H3].
Defined.

(** C2 as stated fails: a [paid] row becomes [failed] when a failed
    notification arrives afterwards, and a replayed paid notification
    inserts an order again. *)
Lemma finalized_status_changes :
  List.map status_of (payments (Store [<["status" := JStr "paid"]> pay1] []))
    = [Some (JStr "paid")] /\
  List.map status_of
    (payments (serve (WebhookOrange failed_note)
                     (Store [<["status" := JStr "paid"]> pay1] [])).1)
    = [Some (JStr "failed")] /\
  length (orders (serve (WebhookOrange paid_note)
                        (Store [<["status" := JStr "paid"]> pay1] [])).1)
    = 1%nat.
Proof. repeat split; reflexivity. Qed.

(** ** C3: when an order is materialized, and [order_id] *)




(** ** C5: a reference no payment carries *)




(** ** C4: the order insert and the status update *)

Lemma paid_equivalent_not_pending (st : string) :
  paid_equivalent st = true -> st <> "pending".
Proof. intros H ->. discriminate H. Qed.

Lemma webhook_insert_config (body : jsval) (s : store) (i : nat)
    (ord : row) (k : prog) (s' : store) :
  configs (try_catch (webhook_try body) (Respond (Response 500 (Text "err")))) s !! i
    = Some (OrdersInsert ord k, s') ->
  exists st,
    token_of body = Some st /\ paid_equivalent st = true /\
    truthy (reference_of body) = true /\
    s' = Store (update_where (filter_value (reference_of body))
                             (webhook_patch st body) (payments s)) (orders s) /\
    exists p, select_first (filter_value (reference_of body)) (payments s') = Some p /\
              ord = order_of p.
Proof.
  unfold webhook_try, token_of, reference_of.
  destruct (call_toLowerCase _) as [st|] eqn:Ht; cbn [try_catch configs].
  2:{ destruct i; cbn; discriminate. }
  destruct (truthy (or_else _ (get body "reference"))) eqn:Hr; cbn [negb try_catch configs].
  2:{ destruct i; cbn; discriminate. }
  destruct (paid_equivalent st) eqn:Hp; cbn [try_catch configs].
  2:{ destruct i as [|[|i]]; cbn; discriminate. }
  destruct (select_first _ _) as [p|] eqn:Hsel; cbn [try_catch configs].
  2:{ destruct i as [|[|[|i]]]; cbn; discriminate. }
  destruct i as [|[|[|[|i]]]]; cbn; try discriminate.
  intros [= <- <- <-]. exists st. repeat split; auto.
  exists p. split; [exact Hsel | reflexivity].
Qed.

Lemma create_no_insert_config (pid provider : string) (body : jsval)
    (raw : jsval) (resp : response) (s : store) (i : nat)
    (ord : row) (k : prog) (s' : store) :
  configs
    (try_catch
       (if (negb (truthy (get body "amount")) || negb (truthy (get body "phone")))%bool
        then Respond (json_error 400 "amount and phone required")
        else createPaymentRecord pid provider (get body "amount") (get body "phone")
               (get body "name") (get body "items") (Some raw) (Respond resp))
       (Respond (json_error 500 "error"))) s !! i
    <> Some (OrdersInsert ord k, s').
Proof.
  destruct (negb _ || negb _)%bool; cbn [try_catch configs].
  - destruct i; cbn; discriminate.
  - destruct i as [|[|i]]; cbn; discriminate.
Qed.

(** C4, as the code has it, for a request run on its own with every store
    call applied: whenever the execution reaches an insert into [orders],
    the request is a webhook carrying a paid-equivalent token, the status
    update of that same execution has already been applied to the payments
    table, and every payment row carrying the notification's reference has
    that token ([paid], [success] or [completed]) as its status, so none of
    them is [pending]; the order is built from the first of these rows. *)
Theorem no_order_while_pending (q : request) (s : store) (i : nat)
    (ord : row) (k : prog) (s' : store) :
  configs (handle q) s !! i = Some (OrdersInsert ord k, s') ->
  exists body st,
    is_webhook q body /\ token_of body = Some st /\
    paid_equivalent st = true /\ st <> "pending" /\
    s' = Store (update_where (filter_value (reference_of body))
                             (webhook_patch st body) (payments s)) (orders s) /\
    (exists p, select_first (filter_value (reference_of body)) (payments s') = Some p /\
               ord = order_of p) /\
    (forall r, r ∈ payments s' ->
       has_payment_id (filter_value (reference_of body)) r = true ->
       r !! "status" = Some (JStr st) /\ r !! "status" <> Some (JStr "pending")).
Proof.
  intros H.
  assert (Hw : forall body, is_webhook q body ->
            configs (try_catch (webhook_try body)
                       (Respond (Response 500 (Text "err")))) s !! i
            = Some (OrdersInsert ord k, s') ->
            exists body st,
              is_webhook q body /\ token_of body = Some st /\
              paid_equivalent st = true /\ st <> "pending" /\
              s' = Store (update_where (filter_value (reference_of body))
                            (webhook_patch st body) (payments s)) (orders s) /\
              (exists p, select_first (filter_value (reference_of body)) (payments s')
                           = Some p /\ ord = order_of p) /\
              (forall r, r ∈ payments s' ->
                 has_payment_id (filter_value (reference_of body)) r = true ->
                 r !! "status" = Some (JStr st) /\
                 r !! "status" <> Some (JStr "pending"))).
  { intros body Hq Hc.
    destruct (webhook_insert_config body s i ord k s' Hc)
      as (st & Ht & Hp & Hr & Hs' & Hsel).
    exists body, st. repeat split; auto using paid_equivalent_not_pending.
    - subst s'. cbn [payments] in *. eapply updated_rows_carry_token; eauto.
    - subst s'. cbn [payments] in *.
      erewrite updated_rows_carry_token by eauto.
      intros [= E]. now apply (paid_equivalent_not_pending st). }
  destruct q as [pid body | pid body | pid | body | body]; cbn [handle] in H.
  - now apply create_no_insert_config in H.
  - now apply create_no_insert_config in H.
  - exfalso. unfold payment_status in H. cbn [try_catch configs] in H.
    destruct i as [|i]; [discriminate|]. cbn in H.
    destruct (select_first pid (payments s)); cbn in H;
      destruct i; cbn in H; discriminate.
  - apply (Hw body); [now left | exact H].
  - apply (Hw body); [now right | exact H].
Qed.

Lemma no_order_while_pending_witness :
  exists body st,
    is_webhook (WebhookOrange paid_note) body /\ token_of body = Some st /\
    paid_equivalent st = true /\ st <> "pending".
Proof.
  destruct (no_order_while_pending (WebhookOrange paid_note) (Store [pay1] []) 2
              (order_of (apply_patch (webhook_patch "paid" paid_note) pay1))
              (Respond ok)
              (Store [apply_patch (webhook_patch "paid" paid_note) pay1] []))
    as (body & st & H1 & H2 & H3 & H4 & _).
  - reflexivity.
  - exists body, st. repeat split; assumption.
Defined.

(** A request that is alone in flight and whose calls are all applied runs
    as [run] says. *)
Lemma play_alone (p : prog) (s : store) :
  exists n,
    play (replicate n (Apply 0)) [p] s
    = ([match (run p s).2 with Some r => Respond r | None => Throw end],
       (run p s).1).
Proof.
  revert s.
  induction p as [r| |r k IH|id patch k IH|id k IH|r k IH]; intros s.
  - exists 0%nat. reflexivity.
  - exists 0%nat. reflexivity.
  - destruct (IH (Store (payments s ++ [r]) (orders s))) as (n & Hn).
    exists (S n). exact Hn.
  - destruct (IH (Store (update_where id patch (payments s)) (orders s)))
      as (n & Hn).
    exists (S n). exact Hn.
  - destruct (IH (select_first id (payments s)) s) as (n & Hn).
    exists (S n). exact Hn.
  - destruct (IH (Store (payments s) (orders s ++ [r]))) as (n & Hn).
    exists (S n). exact Hn.
Qed.

(** C4 as stated fails.  Two notifications for [pay_1] in flight, a paid one
    and one that says the payment is still pending: the paid one updates the
    row, the other one overwrites the status with ['pending'], and the paid
    one then selects and inserts its order while the row is pending; when
    both have answered the order is there and the row is still pending.  A
    paid notification alone does the same when the store refuses its update,
    whose result the handler does not look at.  And run on its own with the
    token ['success'] the row's status at the insert is ['success'], not
    ['paid']. *)
Lemma order_inserted_while_pending :
  existsb (inserts_while_pending "pay_1")
    (applied [Apply 0; Apply 1; Apply 0; Apply 0]%nat
       (in_flight [paid_note; pending_note]) (Store [pay1] [])) = true /\
  (let final := play [Apply 0; Apply 1; Apply 0; Apply 0; Apply 1]%nat
                  (in_flight [paid_note; pending_note]) (Store [pay1] []) in
   final.1 = [Respond ok; Respond ok] /\
   List.map status_of (payments final.2) = [Some (JStr "pending")] /\
   length (orders final.2) = 1%nat) /\
  existsb (inserts_while_pending "pay_1")
    (applied [Refuse 0; Apply 0; Apply 0]%nat
       (in_flight [paid_note]) (Store [pay1] [])) = true /\
  (let final := play [Refuse 0; Apply 0; Apply 0]%nat
                  (in_flight [paid_note]) (Store [pay1] []) in
   final.1 = [Respond ok] /\
   List.map status_of (payments final.2) = [Some (JStr "pending")] /\
   length (orders final.2) = 1%nat) /\
  List.map status_of
    (payments (serve (WebhookOrange success_note) (Store [pay1] [])).1)
    = [Some (JStr "success")] /\
  length (orders (serve (WebhookOrange success_note) (Store [pay1] [])).1)
    = 1%nat.
Proof. vm_compute. repeat split; reflexivity. Qed.

(** ** C9: the values the status column takes *)

Lemma token_lowercase (body : jsval) (st : string) :
  token_of body = Some st -> toLowerCase st = st.
Proof.
  unfold token_of, call_toLowerCase.
  destruct (or_else _ _) as [[]|]; try discriminate.
  intros [= <-]. apply toLowerCase_idem.
Qed.

Lemma status_written_update (id st : string) (body : jsval) (t : list row) :
  token_of body = Some st ->
  Forall status_written t ->
  Forall status_written (update_where id (webhook_patch st body) t).
Proof.
  intros Ht. unfold update_where. induction 1 as [|r t Hr _ IH]; cbn [List.map].
  - constructor.
  - constructor; [|exact IH].
    destruct (has_payment_id id r); [|exact Hr].
    exists st. split; [apply patch_lookup_status|].
    split; [eapply token_lowercase; eauto | right; eauto].
Qed.

Lemma webhook_outcome_payments (body : jsval) (s : store) :
  payments (webhook_outcome body s).1 = payments s \/
  exists st, token_of body = Some st /\
    payments (webhook_outcome body s).1 =
    update_where (filter_value (reference_of body)) (webhook_patch st body)
                 (payments s).
Proof.
  unfold webhook_outcome.
  destruct (token_of body) as [st|]; [|now left].
  destruct (truthy (reference_of body)); [|now left].
  right. exists st. split; [reflexivity|]. cbn [negb]. cbv zeta.
  destruct (paid_equivalent st); [|reflexivity].
  destruct (select_first _ _); reflexivity.
Qed.

Lemma status_written_serve (q : request) (s : store) :
  Forall status_written (payments s) ->
  Forall status_written (payments (serve q s).1).
Proof.
  intros Hs.
  destruct (request_cases q) as [Hc | [(pid & ->) | (body & Hq)]].
  - destruct (serve_create q s Hc) as (_ & [-> | (r & -> & Hr & _)]); [exact Hs|].
    apply Forall_app. split; [exact Hs|]. constructor; [|constructor].
    exists "pending". auto.
  - now rewrite serve_payment_status.
  - rewrite (serve_webhook q body s Hq).
    destruct (webhook_outcome_payments body s) as [-> | (st & Ht & ->)]; [exact Hs|].
    now apply status_written_update.
Qed.

(** C9, as the code has it: in every store the server can reach, the status
    of every payment row is a lowercase string, ['pending'] as written at
    checkout or the lowercased status/result token of a notification; the
    value is whatever the provider sent, not one of four. *)
Theorem status_is_lowercased_token (s : store) (i : nat) (r : row) :
  reachable s ->
  payments s !! i = Some r ->
  exists st, r !! "status" = Some (JStr st) /\ toLowerCase st = st /\
             (st = "pending" \/ exists body, token_of body = Some st).
Proof.
  intros Hreach Hi.
  assert (Hall : Forall status_written (payments s)).
  { clear Hi. induction Hreach as [|q s _ IH].
    - constructor.
    - now apply status_written_serve. }
  rewrite Forall_lookup in Hall. exact (Hall i r Hi).
Qed.

Lemma status_is_lowercased_token_witness :
  exists st,
    apply_patch (webhook_patch "success" success_note)
      (object_literal
         [("payment_id", Some (JStr "pay_1")); ("provider", Some (JStr "orange"));
          ("amount", Some (JNum 5000)); ("phone", Some (JStr "620000000"));
          ("customer_name", Some (JStr "Awa")); ("items", Some (JArr [JStr "shirt"]));
          ("status", Some (JStr "pending"));
          ("provider_data",
           Some (JObj [("simulated", JBool true);
                       ("note", JStr "You must replace with real Orange API call")]))])
      !! "status" = Some (JStr st) /\
    toLowerCase st = st /\
    (st = "pending" \/ exists body, token_of body = Some st).
Proof.
  apply (status_is_lowercased_token
           (serve (WebhookOrange success_note)
                  (serve (CreateOrange "pay_1" checkout1) empty_store).1).1 0).
  - apply reachable_serve, reachable_serve, reachable_init.
  - reflexivity.
Defined.

(** C9 as stated fails: after a checkout and a webhook whose status field is
    ["SUCCESS"], the reachable store holds a payment whose status is
    ['success'], none of the four. *)
Lemma status_outside_enum :
  reachable (serve (WebhookOrange success_note)
                   (serve (CreateOrange "pay_1" checkout1) empty_store).1).1 /\
  List.map status_of
    (payments (serve (WebhookOrange success_note)
                     (serve (CreateOrange "pay_1" checkout1) empty_store).1).1)
    = [Some (JStr "success")] /\
  List.map spec_status_in_enum
    (payments (serve (WebhookOrange success_note)
                     (serve (CreateOrange "pay_1" checkout1) empty_store).1).1)
    = [false].
Proof.
  split; [apply reachable_serve, reachable_serve, reachable_init|].
  split; reflexivity.
Qed.

(** ** C10: which notifications insert an order *)

Lemma app_singleton_neq {A : Type} (l : list A) (x : A) : (l ++ [x])%list <> l.
Proof.
  intros H. apply (f_equal (@length A)) in H. rewrite length_app in H.
  cbn in H. lia.
Qed.

(** What the update of a webhook with token [st] does to the payments table,
    row by row. *)
Lemma webhook_update_pointwise (body : jsval) (st : string) (s : store) :
  token_of body = Some st -> truthy (reference_of body) = true ->
  length (payments (webhook_outcome body s).1) = length (payments s) /\
  forall i r, payments s !! i = Some r ->
    exists r', payments (webhook_outcome body s).1 !! i = Some r' /\
      if has_payment_id (filter_value (reference_of body)) r
      then r' !! "status" = Some (JStr st) /\
           r' !! "provider_data" = Some body /\
           forall c, c <> "status" -> c <> "provider_data" -> r' !! c = r !! c
      else r' = r.
Proof.
  intros Ht Hr.
  assert (E : payments (webhook_outcome body s).1 =
              update_where (filter_value (reference_of body))
                (webhook_patch st body) (payments s)).
  { unfold webhook_outcome. rewrite Ht, Hr. cbn [negb]. cbv zeta.
    destruct (paid_equivalent st); [|reflexivity].
    destruct (select_first _ _); reflexivity. }
  rewrite E. split; [apply update_where_length|].
  intros i r Hi. rewrite update_where_lookup, Hi. cbn.
  eexists. split; [reflexivity|].
  destruct (has_payment_id _ r); [|reflexivity].
  split; [apply patch_lookup_status|].
  split; [apply patch_lookup_provider_data|].
  intros c H1 H2. now apply patch_lookup_other.
Qed.

(** C10: in both mobile-money webhooks an order row is inserted exactly when
    the notification names a reference that a payment row carries and its
    lowercased status (or result) token is ['paid'], ['success'] or
    ['completed'], and then exactly one row, built from the payment.  A
    notification that names a reference and has a string token overwrites
    the payments table row by row: a row carrying the reference gets the
    token as its [status] and the notification as its [provider_data] and
    keeps every other column, any other row is left as it was, and no row is
    added or removed; with a token other than the three above [orders] is
    left alone.  A notification with neither a status nor a result field has
    the token ['pending']. *)
Theorem order_insert_iff_paid_token (q : request) (body : jsval) (s : store) :
  is_webhook q body ->
  ((exists p, orders (serve q s).1 = (orders s ++ [order_of p])%list) <->
   (truthy (reference_of body) = true /\ known body s = true /\
    exists st, token_of body = Some st /\
               (st = "paid" \/ st = "success" \/ st = "completed"))) /\
  (orders (serve q s).1 = orders s \/
   exists p, orders (serve q s).1 = (orders s ++ [order_of p])%list) /\
  (forall st, token_of body = Some st ->
     truthy (reference_of body) = true ->
     length (payments (serve q s).1) = length (payments s) /\
     forall i r, payments s !! i = Some r ->
       exists r', payments (serve q s).1 !! i = Some r' /\
         if has_payment_id (filter_value (reference_of body)) r
         then r' !! "status" = Some (JStr st) /\
              r' !! "provider_data" = Some body /\
              forall c, c <> "status" -> c <> "provider_data" ->
                        r' !! c = r !! c
         else r' = r) /\
  (forall st, token_of body = Some st ->
     ~ (st = "paid" \/ st = "success" \/ st = "completed") ->
     truthy (reference_of body) = true ->
     orders (serve q s).1 = orders s) /\
  (get body "status" = None -> get body "result" = None ->
   token_of body = Some "pending").
Proof.
  intros Hq. rewrite (serve_webhook q body s Hq).
  assert (Hcases :
    (truthy (reference_of body) = true /\ known body s = true /\
     exists st, token_of body = Some st /\ paid_equivalent st = true) \/
    (orders (webhook_outcome body s).1 = orders s /\
     ~ (truthy (reference_of body) = true /\ known body s = true /\
        exists st, token_of body = Some st /\ paid_equivalent st = true))).
  { destruct (token_of body) as [st|] eqn:Ht.
    2:{ right. unfold webhook_outcome. rewrite Ht. split; [reflexivity|].
        intros (_ & _ & st & [=] & _). }
    destruct (truthy (reference_of body)) eqn:Hr.
    2:{ right. unfold webhook_outcome. rewrite Ht, Hr. split; [reflexivity|].
        intros ([=] & _). }
    destruct (paid_equivalent st) eqn:Hp.
    2:{ right. rewrite (webhook_outcome_not_paid body st s Ht Hp Hr).
        split; [reflexivity|]. intros (_ & _ & st' & [= <-] & Hp'). congruence. }
    destruct (known body s) eqn:Hk.
    2:{ right. rewrite (webhook_outcome_unknown body s Hk).
        split; [reflexivity|]. intros (_ & [=] & _). }
    left. eauto. }
  split; [|split; [|split; [|split]]].
  - destruct Hcases as [(Hr & Hk & st & Ht & Hp) | (Ho & Hn)].
    + destruct (webhook_outcome_paid body st s Ht Hp Hr Hk) as (p & _ & ->).
      cbn [fst orders]. split; [|eauto].
      intros _. repeat split; auto. exists st.
      split; [exact Ht | now apply paid_equivalent_spec].
    + rewrite Ho. split.
      * intros (p & Hp). symmetry in Hp. now apply app_singleton_neq in Hp.
      * intros (Hr & Hk & st & Ht & Hp). exfalso. apply Hn.
        repeat split; auto. exists st. split; [exact Ht|].
        now apply paid_equivalent_spec.
  - destruct Hcases as [(Hr & Hk & st & Ht & Hp) | (Ho & _)]; [|now left].
    destruct (webhook_outcome_paid body st s Ht Hp Hr Hk) as (p & _ & ->).
    right. cbn [fst orders]. eauto.
  - intros st Ht Hr. now apply webhook_update_pointwise.
  - intros st Ht Hnp Hr.
    assert (Hp : paid_equivalent st = false).
    { destruct (paid_equivalent st) eqn:E; [|reflexivity].
      exfalso. now apply Hnp, paid_equivalent_spec. }
    now rewrite (webhook_outcome_not_paid body st s Ht Hp Hr).
  - intros H1 H2. unfold token_of. now rewrite H1, H2.
Qed.

Lemma order_insert_iff_paid_token_witness :
  (exists p, orders (serve (WebhookMtn success_note) (Store [pay1] [])).1
             = ([] ++ [order_of p])%list) /\
  (exists r', payments (serve (WebhookMtn failed_note) (Store [pay1] [])).1 !! 0%nat
              = Some r' /\
              r' !! "status" = Some (JStr "failed") /\
              r' !! "provider_data" = Some failed_note /\
              r' !! "amount" = Some (JNum 5000)) /\
  orders (serve (WebhookMtn failed_note) (Store [pay1] [])).1 = [] /\
  token_of (JObj [("externalId", JStr "pay_1")]) = Some "pending".
Proof.
  destruct (order_insert_iff_paid_token (WebhookMtn success_note) success_note
              (Store [pay1] [])) as (H1 & _ & _ & _ & _);
    [right; reflexivity|].
  destruct (order_insert_iff_paid_token (WebhookMtn failed_note) failed_note
              (Store [pay1] [])) as (_ & _ & H3 & H4 & _);
    [right; reflexivity|].
  destruct (order_insert_iff_paid_token
              (WebhookMtn (JObj [("externalId", JStr "pay_1")]))
              (JObj [("externalId", JStr "pay_1")]) (Store [pay1] []))
    as (_ & _ & _ & _ & H5);
    [right; reflexivity|].
  split; [|split; [|split]].
  - apply H1. split; [reflexivity|]. split; [reflexivity|].
    exists "success". split; [reflexivity | right; left; reflexivity].
  - destruct (H3 "failed" eq_refl eq_refl) as (_ & Hrows).
    destruct (Hrows 0%nat pay1 eq_refl) as (r' & Hr' & Hcols).
    change (has_payment_id (filter_value (reference_of failed_note)) pay1)
      with true in Hcols.
    destruct Hcols as (Hst & Hpd & Hother).
    exists r'. split; [exact Hr'|]. split; [exact Hst|]. split; [exact Hpd|].
    rewrite Hother by discriminate. reflexivity.
  - apply (H4 "failed" eq_refl); [|reflexivity].
    intros [H | [H | H]]; discriminate H.
  - apply H5; reflexivity.
Defined.

(** ** The Stripe back end *)

Import Stripe.

(** [Math.round] on some doubles: ties go up, also below zero; the double
    just under one half rounds to 0; a number that is whole already is
    kept. *)
Example Math_round_examples :
  List.map Math_round
    [2.5; -2.5; 0.5; 0.49999999999999994; 1968.4999999999998;
     100.49999999999999; -7.5; -7.500001; 7; 4503599627370495.5]%float
  = [3; -2; 1; 0; 1968; 100; -7; -8; 7; 4503599627370496]%float /\
  Prim2SF (Math_round (-0.2)) = S754_zero true /\
  Prim2SF (Math_round nan) = S754_nan /\
  Math_round infinity = infinity.
Proof. vm_compute. repeat split; reflexivity. Qed.

Lemma is_ghs_default (currency : option string) :
  is_ghs (Some (match currency with Some x => x | None => "usd" end))
  = is_ghs currency.
Proof. destruct currency; reflexivity. Qed.

(** The calls a checkout makes to Stripe: none for an empty cart, otherwise
    one, with the amount computed from the cart. *)
Lemma create_payment_intent_calls (GHS_RATE : float)
    (create : intent_params -> intent_result)
    (stringify : list line_item -> string) (body : checkout_body) :
  match cart body with
  | CartArray (i :: items) =>
      List.map ip_amount (create_payment_intent GHS_RATE create stringify body).2
      = [if is_ghs (currency body)
         then Math_round (totalUSD (i :: items) * GHS_RATE * 100)%float
         else Math_round (totalUSD (i :: items) * 100)%float] /\
      client_error (create_payment_intent GHS_RATE create stringify body).1 = false
  | _ =>
      create_payment_intent GHS_RATE create stringify body
      = (MoMo.json_error 400 "Cart is empty", [])
  end.
Proof.
  unfold create_payment_intent.
  destruct (cart body) as [| |[|i items]]; try reflexivity.
  rewrite <- (is_ghs_default (currency body)).
  unfold toSmallestUnit, is_ghs.
  destruct (create _); cbn [snd fst List.map]; split;
    try reflexivity; destruct (String.eqb _ "ghs"); reflexivity.
Qed.


(** ** C7: the amount charged *)




(** ** C8: which checkouts are rejected *)

(** C8, as the code has it: checkout answers with a client error (400
    "Cart is empty") exactly when the cart is missing, is not an array or is
    empty, and then no Stripe transaction is opened; a non-empty cart is
    never rejected, whatever the prices and quantities of its lines, and
    opens exactly one transaction.  (This route writes no payment record in
    either case.) *)
Theorem checkout_rejects_only_empty_cart (GHS_RATE : float)
    (create : intent_params -> intent_result)
    (stringify : list line_item -> string) (body : checkout_body) :
  (client_error (create_payment_intent GHS_RATE create stringify body).1 = true
   <-> cart_empty (cart body) = true) /\
  (cart_empty (cart body) = true ->
   create_payment_intent GHS_RATE create stringify body
   = (MoMo.json_error 400 "Cart is empty", [])) /\
  (cart_empty (cart body) = false ->
   length (create_payment_intent GHS_RATE create stringify body).2 = 1%nat).
Proof.
  assert (H := create_payment_intent_calls GHS_RATE create stringify body).
  destruct (cart body) as [| |[|i items]]; cbn [cart_empty];
    try (rewrite H; repeat split; auto; discriminate).
  destruct H as (Ha & He). rewrite He. repeat split; try discriminate.
  intros _. apply (f_equal (@length float)) in Ha. now rewrite length_map in Ha.
Qed.

Lemma checkout_rejects_only_empty_cart_witness :
  create_payment_intent 15 stub_create stub_stringify (body_of [] None)
  = (MoMo.json_error 400 "Cart is empty", []) /\
  length (create_payment_intent 15 stub_create stub_stringify
            (body_of example_cart None)).2 = 1%nat.
Proof.
  split.
  - apply (checkout_rejects_only_empty_cart 15 stub_create stub_stringify
             (body_of [] None)). reflexivity.
  - apply (checkout_rejects_only_empty_cart 15 stub_create stub_stringify
             (body_of example_cart None)). reflexivity.
Defined.

(** C8 as stated fails: a cart whose only line has the price -5 is not
    rejected; a transaction of -500 is opened and the answer is 200. *)
Lemma invalid_line_not_rejected :
  spec_cart_rejected (CartArray [LineItem (Num (-5)) (Num 1)]) = true /\
  client_error
    (create_payment_intent 15 stub_create stub_stringify
       (body_of [LineItem (Num (-5)) (Num 1)] None)).1 = false /\
  List.map ip_amount
    (create_payment_intent 15 stub_create stub_stringify
       (body_of [LineItem (Num (-5)) (Num 1)] None)).2 = [(-500)%float].
Proof. repeat split; vm_compute; reflexivity. Qed.

(** ** C6: verification of inbound notifications *)





(** A JSON array that holds one string converts to that string.  With no
    secret configured, a delivery whose body is such an array around the
    text of an event is parsed and processed, its signature not looked at. *)
Example array_wrapped_event_is_processed :
  webhook 15 None stub_no_signature stub_parse_event stub_parse_cart
          stub_insert_ok (JArr [JStr "event"]) None []
  = ([Order "customer@example.com" example_cart 70 "Customer" "123" "Street"
            "paid" "pi_1"], received).
Proof. vm_compute. reflexivity. Qed.

(** * More properties of the code *)

Import Runs.

(** ** Mobile money: what each request does *)

Lemma webhook_effect (body : jsval) (s : store) :
  (webhook_outcome body s).1 =
  Store (webhook_rows body (payments s))
        (orders s ++ webhook_orders body (payments s)).
Proof.
  unfold webhook_outcome, webhook_rows, webhook_orders.
  destruct s as [ps os]; cbn [payments orders].
  destruct (token_of body) as [st|]; [|now rewrite app_nil_r].
  destruct (truthy (reference_of body)); cbn [negb andb]; [|now rewrite app_nil_r].
  cbv zeta. rewrite select_first_update.
  destruct (paid_equivalent st); [|now rewrite app_nil_r].
  destruct (select_first _ ps); cbn; [reflexivity | now rewrite app_nil_r].
Qed.

Lemma webhook_answer (body : jsval) (s : store) :
  (webhook_outcome body s).2 =
  Some (match token_of body with
        | None => Response 500 (Text "err")
        | Some _ => if truthy (reference_of body) then ok
                    else Response 400 (Text "missing id")
        end).
Proof.
  unfold webhook_outcome.
  destruct (token_of body) as [st|]; [|reflexivity].
  destruct (truthy (reference_of body)); cbn [negb]; [|reflexivity].
  cbv zeta. destruct (paid_equivalent st); [|reflexivity].
  destruct (select_first _ _); reflexivity.
Qed.

(** The row a checkout writes. *)
Lemma checkout_row_columns (pid provider : string)
    (amount phone name items raw : option jsval) :
  truthy amount = true -> truthy phone = true ->
  let r := object_literal
             [("payment_id", Some (JStr pid)); ("provider", Some (JStr provider));
              ("amount", amount); ("phone", phone); ("customer_name", name);
              ("items", items); ("status", Some (JStr "pending"));
              ("provider_data", or_else raw (Some JNull))] in
  r !! "payment_id" = Some (JStr pid) /\
  r !! "provider" = Some (JStr provider) /\
  r !! "status" = Some (JStr "pending") /\
  r !! "amount" = amount /\ r !! "phone" = phone /\
  r !! "customer_name" = name /\ r !! "items" = items.
Proof.
  intros Ha Hp r. subst r. rewrite !object_literal_lookup.
  destruct amount as [a|]; [|discriminate].
  destruct phone as [p|]; [|discriminate].
  destruct name, items, (or_else raw (Some JNull)); repeat split; reflexivity.
Qed.

Lemma serve_create_valid (q : request) (pid provider : string) (body : jsval)
    (s : store) :
  (q = CreateOrange pid body /\ provider = "orange") \/
  (q = CreateMtn pid body /\ provider = "mtn") ->
  truthy (get body "amount") = true -> truthy (get body "phone") = true ->
  exists raw,
    (serve q s).1 =
      Store (payments s ++
             [object_literal
                [("payment_id", Some (JStr pid)); ("provider", Some (JStr provider));
                 ("amount", get body "amount"); ("phone", get body "phone");
                 ("customer_name", get body "name"); ("items", get body "items");
                 ("status", Some (JStr "pending"));
                 ("provider_data", or_else raw (Some JNull))]])
            (orders s) /\
    answer_code (serve q s).2 = Some 200 /\
    answer_field "paymentId" (serve q s).2 = Some (JStr pid).
Proof.
  intros [[-> ->] | [-> ->]] Ha Hp; unfold serve; cbn [handle];
    unfold create_payment_orange, create_payment_mtn;
    rewrite Ha, Hp; cbn [negb orb]; unfold createPaymentRecord;
    cbn [try_catch run payments orders];
    (eexists; split; [reflexivity|]; split; reflexivity).
Qed.

Lemma serve_create_invalid (q : request) (pid : string) (body : jsval) (s : store) :
  q = CreateOrange pid body \/ q = CreateMtn pid body ->
  (truthy (get body "amount") && truthy (get body "phone"))%bool = false ->
  serve q s = (s, Some (json_error 400 "amount and phone required")).
Proof.
  intros [-> | ->] H; unfold serve; cbn [handle];
    unfold create_payment_orange, create_payment_mtn;
    destruct (truthy (get body "amount")), (truthy (get body "phone"));
    try discriminate; reflexivity.
Qed.

(** X1.  A checkout request ([POST /api/create-payment/orange] or [/mtn]) is
    refused with 400, and writes nothing, exactly when [amount] or [phone]
    is missing or falsy (an amount of 0 and an empty phone included);
    otherwise it appends one payments row carrying the given payment id, the
    provider, status ['pending'] and the body's amount, phone, name and
    items as they came, leaves [orders] alone and answers 200 with the
    payment id. *)
Theorem checkout_writes_one_pending_row (q : request) (pid provider : string)
    (body : jsval) (s : store) :
  (q = CreateOrange pid body /\ provider = "orange") \/
  (q = CreateMtn pid body /\ provider = "mtn") ->
  if (truthy (get body "amount") && truthy (get body "phone"))%bool
  then
    exists r,
      (serve q s).1 = Store (payments s ++ [r]) (orders s) /\
      r !! "payment_id" = Some (JStr pid) /\
      r !! "provider" = Some (JStr provider) /\
      r !! "status" = Some (JStr "pending") /\
      r !! "amount" = get body "amount" /\
      r !! "phone" = get body "phone" /\
      r !! "customer_name" = get body "name" /\
      r !! "items" = get body "items" /\
      answer_code (serve q s).2 = Some 200 /\
      answer_field "paymentId" (serve q s).2 = Some (JStr pid)
  else
    serve q s = (s, Some (json_error 400 "amount and phone required")).
Proof.
  intros Hq.
  destruct (truthy (get body "amount")) eqn:Ha, (truthy (get body "phone")) eqn:Hp;
    cbn [andb];
    try (apply (serve_create_invalid q pid body s); [tauto | now rewrite Ha, Hp]).
  destruct (serve_create_valid q pid provider body s Hq Ha Hp)
    as (raw & Hs & Hc & Hf).
  eexists. split; [exact Hs|].
  destruct (checkout_row_columns pid provider (get body "amount")
              (get body "phone") (get body "name") (get body "items") raw Ha Hp)
    as (H1 & H2 & H3 & H4 & H5 & H6 & H7).
  repeat split; assumption.
Qed.

Lemma checkout_writes_one_pending_row_witness :
  exists r,
    (serve (CreateMtn "pay_7" checkout1) empty_store).1 = Store ([] ++ [r]) [] /\
    r !! "payment_id" = Some (JStr "pay_7") /\
    r !! "provider" = Some (JStr "mtn").
Proof.
  assert (H := checkout_writes_one_pending_row (CreateMtn "pay_7" checkout1)
                 "pay_7" "mtn" checkout1 empty_store
                 (or_intror (conj eq_refl eq_refl))).
  cbn [andb] in H. destruct H as (r & H1 & H2 & H3 & _).
  exists r. repeat split; assumption.
Defined.

Lemma select_first_app_fresh (id : string) (t : list row) (r : row) :
  existsb (has_payment_id id) t = false ->
  has_payment_id id r = true ->
  select_first id (t ++ [r]) = Some r.
Proof.
  intros Hf Hr. unfold select_first.
  induction t as [|r0 t IH]; cbn [app List.find existsb] in *.
  - now rewrite Hr.
  - apply orb_false_iff in Hf as [E1 E2]. rewrite E1. auto.
Qed.

Lemma has_payment_id_of_column (id : string) (r : row) :
  r !! "payment_id" = Some (JStr id) -> has_payment_id id r = true.
Proof. unfold has_payment_id. intros ->. apply String.eqb_refl. Qed.

Lemma serve_payment_status_answer (pid : string) (s : store) :
  (serve (PaymentStatus pid) s).2 =
  match select_first pid (payments s) with
  | None => Some (json_error 404 "not found")
  | Some p =>
      Some (Response 200 (Json (JObj
        [("status", or_null (p !! "status"));
         ("payment", JObj (map_to_list p));
         ("message", or_null (or_else (p !! "provider_message") (Some JNull)))])))
  end.
Proof.
  unfold serve; cbn. destruct (select_first pid (payments s)); reflexivity.
Qed.

(** X2.  [GET /api/payment-status/:paymentId] never changes the store; it
    answers 404 exactly when no payments row carries the id, and otherwise
    200 with the status of the first row that does. *)
Theorem payment_status_reads_first_row (pid : string) (s : store) :
  (serve (PaymentStatus pid) s).1 = s /\
  (answer_code (serve (PaymentStatus pid) s).2 = Some 404 <->
   existsb (has_payment_id pid) (payments s) = false) /\
  (forall p, select_first pid (payments s) = Some p ->
     answer_code (serve (PaymentStatus pid) s).2 = Some 200 /\
     answer_field "status" (serve (PaymentStatus pid) s).2
       = Some (or_null (p !! "status"))).
Proof.
  split; [apply serve_payment_status|].
  rewrite serve_payment_status_answer.
  destruct (existsb (has_payment_id pid) (payments s)) eqn:Hk.
  - destruct (select_first_known _ _ Hk) as (p & -> & _).
    split; [split; discriminate|].
    intros p' [= <-]. split; reflexivity.
  - rewrite (select_first_unknown _ _ Hk). split; [tauto|]. discriminate.
Qed.

(** X3.  A checkout that is accepted under an id no row carries yet can be
    read back at once: the status route answers 200 with status
    ['pending'] for that id. *)
Theorem checkout_then_status_is_pending (q : request) (pid : string)
    (body : jsval) (s : store) :
  q = CreateOrange pid body \/ q = CreateMtn pid body ->
  truthy (get body "amount") = true -> truthy (get body "phone") = true ->
  existsb (has_payment_id pid) (payments s) = false ->
  answer_code (serve (PaymentStatus pid) (serve q s).1).2 = Some 200 /\
  answer_field "status" (serve (PaymentStatus pid) (serve q s).1).2
    = Some (JStr "pending").
Proof.
  intros Hq Ha Hp Hfresh.
  assert (Hq' : exists provider,
            (q = CreateOrange pid body /\ provider = "orange") \/
            (q = CreateMtn pid body /\ provider = "mtn")).
  { destruct Hq as [-> | ->]; eauto. }
  destruct Hq' as (provider & Hq').
  destruct (serve_create_valid q pid provider body s Hq' Ha Hp) as (raw & -> & _).
  destruct (checkout_row_columns pid provider (get body "amount")
              (get body "phone") (get body "name") (get body "items") raw Ha Hp)
    as (H1 & _ & H3 & _).
  rewrite serve_payment_status_answer. cbn [payments].
  rewrite (select_first_app_fresh pid (payments s) _ Hfresh
             (has_payment_id_of_column pid _ H1)).
  cbn [answer_code answer_field status_code get assoc String.eqb Ascii.eqb Bool.eqb].
  now rewrite H3.
Qed.

Lemma checkout_then_status_is_pending_witness :
  answer_code (serve (PaymentStatus "pay_9")
                 (serve (CreateOrange "pay_9" checkout1) (Store [pay1] [])).1).2
    = Some 200 /\
  answer_field "status"
    (serve (PaymentStatus "pay_9")
       (serve (CreateOrange "pay_9" checkout1) (Store [pay1] [])).1).2
    = Some (JStr "pending").
Proof.
  apply (checkout_then_status_is_pending (CreateOrange "pay_9" checkout1)
           "pay_9" checkout1 (Store [pay1] [])).
  - left; reflexivity.
  - reflexivity.
  - reflexivity.
  - reflexivity.
Defined.

(** X4.  After a webhook that names a known reference and carries a string
    token, the status route answers, for that reference, 200 with the
    notification's lowercased token. *)
Theorem webhook_then_status_is_token (q : request) (body : jsval) (st : string)
    (s : store) :
  is_webhook q body ->
  token_of body = Some st ->
  truthy (reference_of body) = true ->
  known body s = true ->
  answer_code (serve (PaymentStatus (filter_value (reference_of body)))
                     (serve q s).1).2 = Some 200 /\
  answer_field "status"
    (serve (PaymentStatus (filter_value (reference_of body))) (serve q s).1).2
    = Some (JStr st).
Proof.
  intros Hq Ht Hr Hk.
  rewrite (serve_webhook q body s Hq), webhook_effect.
  rewrite serve_payment_status_answer. cbn [payments].
  unfold webhook_rows. rewrite Ht, Hr, select_first_update.
  destruct (select_first_known _ _ Hk) as (p & -> & _).
  cbn [fmap option_fmap option_map answer_code answer_field status_code get
       assoc String.eqb Ascii.eqb Bool.eqb].
  now rewrite patch_lookup_status.
Qed.

Lemma webhook_then_status_is_token_witness :
  answer_field "status"
    (serve (PaymentStatus "pay_1")
       (serve (WebhookMtn success_note) (Store [pay1] [])).1).2
    = Some (JStr "success").
Proof.
  apply (webhook_then_status_is_token (WebhookMtn success_note) success_note
           "success" (Store [pay1] [])).
  - right; reflexivity.
  - reflexivity.
  - reflexivity.
  - reflexivity.
Defined.

(** ** Mobile money: the column the status route reads and nobody writes *)

Lemma no_message_column_serve (q : request) (s : store) :
  Forall (fun r : row => r !! "provider_message" = None) (payments s) ->
  Forall (fun r : row => r !! "provider_message" = None) (payments (serve q s).1).
Proof.
  intros Hs.
  destruct q as [pid body | pid body | pid | body | body].
  1,2: destruct (truthy (get body "amount") && truthy (get body "phone"))%bool eqn:E;
       [ apply andb_true_iff in E as [Ha Hp];
         match goal with
         | |- context [serve (CreateOrange _ _)] =>
             destruct (serve_create_valid (CreateOrange pid body) pid "orange" body s
                         (or_introl (conj eq_refl eq_refl)) Ha Hp) as (raw & -> & _)
         | |- context [serve (CreateMtn _ _)] =>
             destruct (serve_create_valid (CreateMtn pid body) pid "mtn" body s
                         (or_intror (conj eq_refl eq_refl)) Ha Hp) as (raw & -> & _)
         end;
         cbn [payments]; apply Forall_app; split; [exact Hs|];
         constructor; [|constructor];
         rewrite object_literal_lookup;
         destruct (get body "amount"), (get body "phone"), (get body "name"),
           (get body "items"), (or_else raw (Some JNull)); reflexivity
       | erewrite serve_create_invalid; eauto ].
  - now rewrite serve_payment_status.
  - rewrite (serve_webhook _ body s (or_introl eq_refl)), webhook_effect.
    cbn [payments]. unfold webhook_rows.
    destruct (token_of body) as [st|]; [|exact Hs].
    destruct (truthy (reference_of body)); [|exact Hs].
    unfold update_where. apply Forall_forall. intros r Hin.
    apply list_elem_of_In, in_map_iff in Hin as (r0 & <- & Hin0).
    rewrite Forall_forall in Hs. specialize (Hs r0 (proj2 (list_elem_of_In _ _) Hin0)).
    destruct (has_payment_id _ r0); [|exact Hs].
    now rewrite patch_lookup_other by discriminate.
  - rewrite (serve_webhook _ body s (or_intror eq_refl)), webhook_effect.
    cbn [payments]. unfold webhook_rows.
    destruct (token_of body) as [st|]; [|exact Hs].
    destruct (truthy (reference_of body)); [|exact Hs].
    unfold update_where. apply Forall_forall. intros r Hin.
    apply list_elem_of_In, in_map_iff in Hin as (r0 & <- & Hin0).
    rewrite Forall_forall in Hs. specialize (Hs r0 (proj2 (list_elem_of_In _ _) Hin0)).
    destruct (has_payment_id _ r0); [|exact Hs].
    now rewrite patch_lookup_other by discriminate.
Qed.

(** X5.  The status route reports [p.provider_message], a column no handler
    writes (the webhooks store the payload under [provider_data]): in every
    store the server can reach, the [message] of a 200 status answer is
    [null]. *)
Theorem status_message_is_always_null (s : store) (pid : string) :
  reachable s ->
  answer_code (serve (PaymentStatus pid) s).2 = Some 200 ->
  answer_field "message" (serve (PaymentStatus pid) s).2 = Some JNull.
Proof.
  intros Hreach.
  assert (Hall : Forall (fun r : row => r !! "provider_message" = None) (payments s)).
  { induction Hreach as [|q s _ IH]; [constructor | now apply no_message_column_serve]. }
  rewrite serve_payment_status_answer.
  destruct (select_first pid (payments s)) as [p|] eqn:Hsel; [|discriminate].
  intros _. unfold select_first in Hsel. apply find_some in Hsel as [Hin _].
  rewrite Forall_forall in Hall.
  specialize (Hall p (proj2 (list_elem_of_In _ _) Hin)).
  cbn [answer_field get assoc String.eqb Ascii.eqb Bool.eqb]. now rewrite Hall.
Qed.

Lemma status_message_is_always_null_witness :
  answer_field "message"
    (serve (PaymentStatus "pay_1")
       (serve (WebhookOrange paid_note)
          (serve (CreateOrange "pay_1" checkout1) empty_store).1).1).2
  = Some JNull.
Proof.
  apply (status_message_is_always_null
           (serve (WebhookOrange paid_note)
              (serve (CreateOrange "pay_1" checkout1) empty_store).1).1 "pay_1").
  - apply reachable_serve, reachable_serve, reachable_init.
  - reflexivity.
Defined.

(** ** Mobile money: how notifications compose *)

Lemma apply_patch_overwrites (st1 st2 : string) (b1 b2 : jsval) (r : row) :
  apply_patch (webhook_patch st2 b2) (apply_patch (webhook_patch st1 b1) r)
  = apply_patch (webhook_patch st2 b2) r.
Proof.
  unfold apply_patch, webhook_patch; cbn.
  apply map_eq. intros c.
  destruct (decide (c = "status")) as [-> | H1].
  - now rewrite !lookup_insert_eq.
  - rewrite !(lookup_insert_ne _ "status") by congruence.
    destruct (decide (c = "provider_data")) as [-> | H2].
    + now rewrite !lookup_insert_eq.
    + now rewrite !lookup_insert_ne by congruence.
Qed.

Lemma update_where_overwrites (id : string) (st1 st2 : string) (b1 b2 : jsval)
    (t : list row) :
  update_where id (webhook_patch st2 b2) (update_where id (webhook_patch st1 b1) t)
  = update_where id (webhook_patch st2 b2) t.
Proof.
  unfold update_where. rewrite map_map. apply map_ext. intros r.
  destruct (has_payment_id id r) eqn:E.
  - now rewrite patch_has_payment_id, E, apply_patch_overwrites.
  - now rewrite E.
Qed.

(** X6.  The last notification wins: when two webhook notifications that
    carry string tokens name the same reference, the payments table after
    both is the one the second alone would leave, whatever the first said;
    in particular a late ['pending'] overwrites ['paid'], and replaying a
    notification leaves the payments table as it is. *)
Theorem last_notification_wins (q1 q2 : request) (b1 b2 : jsval)
    (st1 st2 : string) (s : store) :
  is_webhook q1 b1 -> is_webhook q2 b2 ->
  token_of b1 = Some st1 -> token_of b2 = Some st2 ->
  truthy (reference_of b1) = true -> truthy (reference_of b2) = true ->
  filter_value (reference_of b1) = filter_value (reference_of b2) ->
  payments (serve q2 (serve q1 s).1).1 = payments (serve q2 s).1.
Proof.
  intros H1 H2 Ht1 Ht2 Hr1 Hr2 Hid.
  rewrite (serve_webhook q1 b1 s H1), (serve_webhook q2 b2 _ H2),
          (serve_webhook q2 b2 s H2), !webhook_effect.
  cbn [payments]. unfold webhook_rows.
  rewrite Ht1, Ht2, Hr1, Hr2, Hid. apply update_where_overwrites.
Qed.

Lemma last_notification_wins_witness :
  payments (serve (WebhookMtn (JObj [("reference", JStr "pay_1")]))
                  (serve (WebhookOrange paid_note) (Store [pay1] [])).1).1
  = payments (serve (WebhookMtn (JObj [("reference", JStr "pay_1")]))
                    (Store [pay1] [])).1.
Proof.
  apply (last_notification_wins (WebhookOrange paid_note)
           (WebhookMtn (JObj [("reference", JStr "pay_1")]))
           paid_note (JObj [("reference", JStr "pay_1")]) "paid" "pending").
  - left; reflexivity.
  - right; reflexivity.
  - reflexivity.
  - reflexivity.
  - reflexivity.
  - reflexivity.
  - reflexivity.
Defined.

Lemma has_payment_id_exclusive (id1 id2 : string) (r : row) :
  id1 <> id2 -> has_payment_id id1 r = true -> has_payment_id id2 r = false.
Proof.
  unfold has_payment_id. intros Hne.
  destruct (r !! "payment_id") as [[]|]; try discriminate.
  intros E%String.eqb_eq. subst. now apply String.eqb_neq.
Qed.

Lemma update_where_commute (id1 id2 : string) (st1 st2 : string) (b1 b2 : jsval)
    (t : list row) :
  id1 <> id2 ->
  update_where id2 (webhook_patch st2 b2) (update_where id1 (webhook_patch st1 b1) t)
  = update_where id1 (webhook_patch st1 b1) (update_where id2 (webhook_patch st2 b2) t).
Proof.
  intros Hne. unfold update_where. rewrite !map_map. apply map_ext. intros r.
  destruct (has_payment_id id1 r) eqn:E1.
  - assert (E2 := has_payment_id_exclusive id1 id2 r Hne E1).
    now rewrite patch_has_payment_id, E2, E1.
  - destruct (has_payment_id id2 r) eqn:E2.
    + now rewrite patch_has_payment_id, E1.
    + now rewrite E1.
Qed.

Lemma select_first_other_update (id1 id2 : string) (st1 : string) (b1 : jsval)
    (t : list row) :
  id1 <> id2 ->
  select_first id2 (update_where id1 (webhook_patch st1 b1) t) = select_first id2 t.
Proof.
  intros Hne. unfold select_first, update_where.
  induction t as [|r t IH]; cbn [List.map List.find]; [reflexivity|].
  destruct (has_payment_id id1 r) eqn:E1.
  - rewrite patch_has_payment_id.
    rewrite (has_payment_id_exclusive id1 id2 r Hne E1). exact IH.
  - destruct (has_payment_id id2 r); [reflexivity | exact IH].
Qed.

Lemma webhook_rows_commute (b1 b2 : jsval) (t : list row) :
  filter_value (reference_of b1) <> filter_value (reference_of b2) ->
  webhook_rows b2 (webhook_rows b1 t) = webhook_rows b1 (webhook_rows b2 t).
Proof.
  intros Hne. unfold webhook_rows.
  destruct (token_of b1) as [st1|], (token_of b2) as [st2|]; try reflexivity.
  destruct (truthy (reference_of b1)), (truthy (reference_of b2)); try reflexivity.
  now apply update_where_commute.
Qed.

Lemma webhook_orders_other (b1 b2 : jsval) (t : list row) :
  filter_value (reference_of b1) <> filter_value (reference_of b2) ->
  webhook_orders b2 (webhook_rows b1 t) = webhook_orders b2 t.
Proof.
  intros Hne. unfold webhook_orders, webhook_rows.
  destruct (token_of b2) as [st2|]; [|reflexivity].
  destruct (truthy (reference_of b2) && paid_equivalent st2)%bool; [|reflexivity].
  destruct (token_of b1) as [st1|]; [|reflexivity].
  destruct (truthy (reference_of b1)); [|reflexivity].
  now rewrite select_first_other_update.
Qed.

(** X7.  Notifications for different payments do not interfere: served in
    either order they leave the same payments table and the same order rows
    (in the order of arrival). *)
Theorem notifications_for_other_payments_commute (q1 q2 : request)
    (b1 b2 : jsval) (s : store) :
  is_webhook q1 b1 -> is_webhook q2 b2 ->
  filter_value (reference_of b1) <> filter_value (reference_of b2) ->
  payments (serve q2 (serve q1 s).1).1 = payments (serve q1 (serve q2 s).1).1 /\
  orders (serve q2 (serve q1 s).1).1 ≡ₚ orders (serve q1 (serve q2 s).1).1 /\
  orders (serve q2 (serve q1 s).1).1
  = (orders s ++ webhook_orders b1 (payments s)
      ++ webhook_orders b2 (payments s))%list.
Proof.
  intros H1 H2 Hne.
  rewrite (serve_webhook q1 b1 s H1), (serve_webhook q2 b2 s H2).
  rewrite (serve_webhook q2 b2 _ H2), (serve_webhook q1 b1 _ H1).
  rewrite !webhook_effect. cbn [payments orders].
  rewrite (webhook_orders_other b1 b2 _ Hne).
  rewrite (webhook_orders_other b2 b1 _ (not_eq_sym Hne)).
  split; [now apply webhook_rows_commute|].
  split.
  - rewrite <- !app_assoc. apply Permutation_app_head, Permutation_app_comm.
  - now rewrite <- app_assoc.
Qed.

Lemma notifications_for_other_payments_commute_witness :
  payments (serve (WebhookMtn stray_note)
                  (serve (WebhookOrange paid_note) (Store [pay1] [])).1).1
  = payments (serve (WebhookOrange paid_note)
                    (serve (WebhookMtn stray_note) (Store [pay1] [])).1).1.
Proof.
  apply (notifications_for_other_payments_commute (WebhookOrange paid_note)
           (WebhookMtn stray_note) paid_note stray_note (Store [pay1] [])).
  - left; reflexivity.
  - right; reflexivity.
  - discriminate.
Defined.

(** ** Mobile money: what is kept, and what an order is made of *)

Lemma serve_seq_cons_store (q : request) (qs : list request) (s : store) :
  (serve_seq (q :: qs) s).1 = (serve_seq qs (serve q s).1).1.
Proof.
  cbn [serve_seq]. destruct (serve q s) as [s1 r]. cbn [fst].
  destruct (serve_seq qs s1). reflexivity.
Qed.

Lemma serve_store_shape (q : request) (s : store) :
  (exists r, (serve q s).1 = Store (payments s ++ [r]) (orders s)) \/
  (exists body, (serve q s).1 =
     Store (webhook_rows body (payments s))
           (orders s ++ webhook_orders body (payments s))) \/
  (serve q s).1 = s.
Proof.
  destruct q as [pid body | pid body | pid | body | body].
  - destruct (truthy (get body "amount") && truthy (get body "phone"))%bool eqn:E.
    + apply andb_true_iff in E as [Ha Hp].
      destruct (serve_create_valid (CreateOrange pid body) pid "orange" body s
                  (or_introl (conj eq_refl eq_refl)) Ha Hp) as (raw & -> & _).
      left. eauto.
    + right; right. erewrite serve_create_invalid; eauto.
  - destruct (truthy (get body "amount") && truthy (get body "phone"))%bool eqn:E.
    + apply andb_true_iff in E as [Ha Hp].
      destruct (serve_create_valid (CreateMtn pid body) pid "mtn" body s
                  (or_intror (conj eq_refl eq_refl)) Ha Hp) as (raw & -> & _).
      left. eauto.
    + right; right. erewrite serve_create_invalid; eauto.
  - right; right. apply serve_payment_status.
  - right; left. exists body.
    now rewrite (serve_webhook _ body s (or_introl eq_refl)), webhook_effect.
  - right; left. exists body.
    now rewrite (serve_webhook _ body s (or_intror eq_refl)), webhook_effect.
Qed.

Lemma webhook_rows_lookup (body : jsval) (t : list row) (i : nat) (r : row) :
  t !! i = Some r ->
  exists r', webhook_rows body t !! i = Some r' /\
    forall c, c <> "status" -> c <> "provider_data" -> r' !! c = r !! c.
Proof.
  intros Hi. unfold webhook_rows.
  destruct (token_of body) as [st|]; [|eauto].
  destruct (truthy (reference_of body)); [|eauto].
  rewrite update_where_lookup, Hi. cbn.
  destruct (has_payment_id _ r); eexists; split; try reflexivity; auto.
  intros c H1 H2. now apply patch_lookup_other.
Qed.

Lemma webhook_rows_length (body : jsval) (t : list row) :
  length (webhook_rows body t) = length t.
Proof.
  unfold webhook_rows.
  destruct (token_of body); [|reflexivity].
  destruct (truthy (reference_of body)); [|reflexivity].
  apply update_where_length.
Qed.

Lemma serve_keeps_rows (q : request) (s : store) :
  (forall i r, payments s !! i = Some r ->
     exists r', payments (serve q s).1 !! i = Some r' /\
       forall c, c <> "status" -> c <> "provider_data" -> r' !! c = r !! c) /\
  orders s `prefix_of` orders (serve q s).1 /\
  (length (payments s) <= length (payments (serve q s).1))%nat.
Proof.
  destruct (serve_store_shape q s) as [(r & ->) | [(body & ->) | ->]];
    cbn [payments orders].
  - split; [|split].
    + intros i r0 Hi. exists r0. split; [now apply lookup_app_l_Some | auto].
    + reflexivity.
    + rewrite length_app. lia.
  - split; [|split].
    + intros i r Hi. now apply webhook_rows_lookup.
    + now apply prefix_app_r.
    + now rewrite webhook_rows_length.
  - split; [eauto | split; [reflexivity | lia]].
Qed.

(** X8.  Nothing is ever deleted or rewritten apart from [status] and
    [provider_data]: after any sequence of requests every payments row is
    still at its place with all its other columns (payment id, provider,
    amount, phone, customer name, items) unchanged, and the orders table has
    only grown at its end. *)
Theorem rows_are_kept (qs : list request) (s : store) :
  (forall i r, payments s !! i = Some r ->
     exists r', payments (serve_seq qs s).1 !! i = Some r' /\
       forall c, c <> "status" -> c <> "provider_data" -> r' !! c = r !! c) /\
  orders s `prefix_of` orders (serve_seq qs s).1 /\
  (length (payments s) <= length (payments (serve_seq qs s).1))%nat.
Proof.
  revert s. induction qs as [|q qs IH]; intros s.
  - cbn. split; [eauto | split; [reflexivity | lia]].
  - rewrite serve_seq_cons_store.
    destruct (serve_keeps_rows q s) as (K1 & K2 & K3).
    destruct (IH (serve q s).1) as (I1 & I2 & I3).
    split; [|split].
    + intros i r Hi. destruct (K1 i r Hi) as (r1 & Hr1 & Hc1).
      destruct (I1 i r1 Hr1) as (r2 & Hr2 & Hc2).
      exists r2. split; [exact Hr2|]. intros c H1 H2.
      now rewrite Hc2, Hc1.
    + etransitivity; eauto.
    + lia.
Qed.

Lemma or_else_default (x : option jsval) (d : jsval) :
  or_else x (Some d) = Some (if truthy x then or_null x else d).
Proof.
  unfold or_else. destruct x as [v|]; [|reflexivity].
  destruct (truthy (Some v)); reflexivity.
Qed.

Lemma order_of_columns (p : row) :
  order_of p !! "total" = p !! "amount" /\
  order_of p !! "items" = p !! "items" /\
  order_of p !! "user_email"
    = Some (if truthy (p !! "phone") then or_null (p !! "phone") else JStr "guest") /\
  order_of p !! "name"
    = Some (if truthy (p !! "customer_name") then or_null (p !! "customer_name")
            else JStr "") /\
  order_of p !! "address" = Some (JStr "Mobile money") /\
  order_of p !! "status" = Some (JStr "pending") /\
  order_of p !! "payment_id" = None.
Proof.
  unfold order_of. rewrite !object_literal_lookup, !or_else_default.
  destruct (p !! "items"), (p !! "amount"); repeat split; reflexivity.
Qed.

(** X9.  The order a paid notification inserts is made from the first
    payments row that carries the reference: total = its amount, items = its
    items, user_email = its phone (['guest'] when the phone is missing or
    falsy), name = its customer name (or ['']), address ['Mobile money'],
    status ['pending']; the order row holds no reference to the payment. *)
Theorem order_copies_payment (q : request) (body : jsval) (st : string)
    (s : store) (p : row) :
  is_webhook q body ->
  token_of body = Some st -> paid_equivalent st = true ->
  truthy (reference_of body) = true ->
  select_first (filter_value (reference_of body)) (payments s) = Some p ->
  exists o,
    orders (serve q s).1 = (orders s ++ [o])%list /\
    o !! "total" = p !! "amount" /\
    o !! "items" = p !! "items" /\
    o !! "user_email"
      = Some (if truthy (p !! "phone") then or_null (p !! "phone") else JStr "guest") /\
    o !! "name"
      = Some (if truthy (p !! "customer_name") then or_null (p !! "customer_name")
              else JStr "") /\
    o !! "address" = Some (JStr "Mobile money") /\
    o !! "status" = Some (JStr "pending") /\
    o !! "payment_id" = None.
Proof.
  intros Hq Ht Hp Hr Hsel.
  rewrite (serve_webhook q body s Hq), webhook_effect. cbn [orders].
  unfold webhook_orders. rewrite Ht, Hr, Hp, Hsel. cbn [andb].
  eexists. split; [reflexivity|].
  destruct (order_of_columns (apply_patch (webhook_patch st body) p))
    as (H1 & H2 & H3 & H4 & H5 & H6 & H7).
  rewrite !patch_lookup_other in H1, H2, H3, H4 by discriminate.
  repeat split; assumption.
Qed.

Lemma order_copies_payment_witness :
  exists o,
    orders (serve (WebhookOrange paid_note) (Store [pay1] [])).1 = ([] ++ [o])%list /\
    o !! "total" = pay1 !! "amount".
Proof.
  destruct (order_copies_payment (WebhookOrange paid_note) paid_note "paid"
              (Store [pay1] []) pay1) as (o & H1 & H2 & _).
  - left; reflexivity.
  - reflexivity.
  - reflexivity.
  - reflexivity.
  - reflexivity.
  - exists o. split; assumption.
Defined.

(** ** Payment identifiers *)

Import Ids.

Lemma string_length_append (s t : string) :
  String.length (s ++ t) = (String.length s + String.length t)%nat.
Proof.
  induction s as [|c s IH]; cbv [String.append]; fold String.append; cbn;
    [reflexivity | now rewrite IH].
Qed.

Lemma append_inj_suffix (s1 s2 t1 t2 : string) :
  s1 ++ t1 = s2 ++ t2 -> String.length t1 = String.length t2 ->
  s1 = s2 /\ t1 = t2.
Proof.
  revert s2. induction s1 as [|c s1 IH]; intros [|c2 s2];
    cbv [String.append]; fold String.append.
  - auto.
  - intros -> Hl. cbn in Hl. rewrite string_length_append in Hl. lia.
  - intros <- Hl. cbn in Hl. rewrite string_length_append in Hl. lia.
  - intros [= -> H] Hl. destruct (IH s2 H Hl) as [-> ->]. auto.
Qed.

Lemma append_inj_prefix (s t1 t2 : string) : s ++ t1 = s ++ t2 -> t1 = t2.
Proof.
  induction s as [|c s IH]; cbv [String.append]; fold String.append;
    [auto | intros [= H]; auto].
Qed.

Lemma unhex_hex_byte (b : byte) : unhex_byte (hex_byte b) = Some b.
Proof. destruct b; vm_compute; reflexivity. Qed.

Lemma hex_byte_inj (b1 b2 : byte) : hex_byte b1 = hex_byte b2 -> b1 = b2.
Proof.
  intros H. apply (f_equal unhex_byte) in H.
  rewrite !unhex_hex_byte in H. congruence.
Qed.

Lemma decimal_inj (n m : N) :
  NilZero.string_of_uint (N.to_uint n) = NilZero.string_of_uint (N.to_uint m) ->
  n = m.
Proof.
  intros H. apply DecimalN.Unsigned.to_uint_inj.
  assert (Hnn : forall k, N.to_uint k <> Decimal.Nil).
  { intros [|p]; [discriminate | apply DecimalPos.Unsigned.to_uint_nonnil]. }
  apply (f_equal NilZero.uint_of_string) in H.
  rewrite !NilZero.usu in H by apply Hnn. congruence.
Qed.

(** X10.  [makeId] gives different identifiers for different (clock, random
    bytes) pairs: the clock reading and the three bytes can be read back
    from the identifier.  An identifier is never empty. *)
Theorem makeId_injective (now1 now2 : N) (r1 r2 : byte * byte * byte) :
  (makeId now1 r1 = makeId now2 r2 -> now1 = now2 /\ r1 = r2) /\
  makeId now1 r1 <> "".
Proof.
  split; [|discriminate].
  unfold makeId. destruct r1 as [[a1 b1] c1], r2 as [[a2 b2] c2]. cbn [fst snd].
  intros H. apply append_inj_prefix in H.
  apply append_inj_suffix in H as [Hn H]; [|reflexivity].
  apply append_inj_prefix in H.
  apply append_inj_suffix in H as [Ha H]; [|reflexivity].
  apply append_inj_suffix in H as [Hb Hc]; [|reflexivity].
  apply decimal_inj in Hn. apply hex_byte_inj in Ha, Hb, Hc. now subst.
Qed.

(** ** Mobile money: from checkout to order *)

Lemma makeId_truthy (now : N) (rnd : byte * byte * byte) :
  truthy (Some (JStr (makeId now rnd))) = true.
Proof. reflexivity. Qed.

Lemma update_where_app (id : string) (patch : list (string * jsval))
    (t1 t2 : list row) :
  update_where id patch (t1 ++ t2)
  = (update_where id patch t1 ++ update_where id patch t2)%list.
Proof. unfold update_where. apply map_app. Qed.

(** X11.  The path the two routes are written for: a checkout accepted under
    a fresh identifier made by [makeId], followed by a webhook that names
    this identifier with a paid-equivalent token.  Both requests are
    answered 200; the store gains exactly one payments row, whose status is
    the token and whose [provider_data] is the notification, and exactly one
    order, whose total, items and user_email are the amount, items and phone
    sent at checkout. *)
Theorem checkout_then_paid_notification (now : N) (rnd : byte * byte * byte)
    (q1 q2 : request) (body note : jsval) (st : string) (s : store) :
  q1 = CreateOrange (makeId now rnd) body \/ q1 = CreateMtn (makeId now rnd) body ->
  is_webhook q2 note ->
  truthy (get body "amount") = true -> truthy (get body "phone") = true ->
  existsb (has_payment_id (makeId now rnd)) (payments s) = false ->
  reference_of note = Some (JStr (makeId now rnd)) ->
  token_of note = Some st -> paid_equivalent st = true ->
  exists r o,
    (serve q2 (serve q1 s).1).1 = Store (payments s ++ [r]) (orders s ++ [o]) /\
    answer_code (serve q1 s).2 = Some 200 /\
    (serve q2 (serve q1 s).1).2 = Some ok /\
    r !! "payment_id" = Some (JStr (makeId now rnd)) /\
    r !! "status" = Some (JStr st) /\
    r !! "provider_data" = Some note /\
    r !! "amount" = get body "amount" /\
    o !! "total" = get body "amount" /\
    o !! "items" = get body "items" /\
    o !! "user_email" = get body "phone".
Proof.
  intros Hq1 Hq2 Ha Hp Hfresh Href Ht Hpaid.
  set (id := makeId now rnd) in *.
  assert (Hq1' : exists provider,
            (q1 = CreateOrange id body /\ provider = "orange") \/
            (q1 = CreateMtn id body /\ provider = "mtn")).
  { destruct Hq1 as [-> | ->]; eauto. }
  destruct Hq1' as (provider & Hq1').
  destruct (serve_create_valid q1 id provider body s Hq1' Ha Hp)
    as (raw & Hs1 & Hc1 & _).
  destruct (checkout_row_columns id provider (get body "amount")
              (get body "phone") (get body "name") (get body "items") raw Ha Hp)
    as (C1 & _ & _ & C4 & C5 & _ & C7).
  set (r0 := object_literal _) in *.
  assert (Hid0 : has_payment_id id r0 = true)
    by (apply has_payment_id_of_column, C1).
  assert (Htr : truthy (reference_of note) = true)
    by (rewrite Href; apply makeId_truthy).
  assert (Hf : filter_value (reference_of note) = id) by now rewrite Href.
  rewrite Hs1.
  rewrite (serve_webhook q2 note _ Hq2), webhook_effect, webhook_answer.
  cbn [payments orders].
  unfold webhook_rows, webhook_orders. rewrite Ht, Htr, Hpaid, Hf. cbn [andb].
  rewrite (select_first_app_fresh id (payments s) r0 Hfresh Hid0).
  rewrite update_where_app, (update_where_unknown _ _ _ _ Hfresh).
  unfold update_where at 1. cbn [List.map]. rewrite Hid0.
  exists (apply_patch (webhook_patch st note) r0),
         (order_of (apply_patch (webhook_patch st note) r0)).
  destruct (order_of_columns (apply_patch (webhook_patch st note) r0))
    as (O1 & O2 & O3 & _).
  rewrite !patch_lookup_other in O1, O2, O3 by discriminate.
  rewrite C5, Hp in O3.
  split; [reflexivity|]. split; [exact Hc1|]. split; [reflexivity|].
  split; [now rewrite patch_lookup_other by discriminate|].
  split; [apply patch_lookup_status|].
  split; [apply patch_lookup_provider_data|].
  split; [now rewrite patch_lookup_other by discriminate|].
  split; [now rewrite O1|]. split; [now rewrite O2|].
  rewrite O3. destruct (get body "phone"); [reflexivity | discriminate].
Qed.

Lemma checkout_then_paid_notification_witness :
  exists r o,
    (serve (WebhookMtn (JObj [("payment_id", JStr (makeId 1700000000000 (x0a, xff, x3c)));
                              ("result", JStr "Completed")]))
       (serve (CreateMtn (makeId 1700000000000 (x0a, xff, x3c)) checkout1)
              (Store [pay1] [])).1).1
    = Store ([pay1] ++ [r]) ([] ++ [o]) /\
    r !! "status" = Some (JStr "completed") /\
    o !! "total" = Some (JNum 5000).
Proof.
  destruct (checkout_then_paid_notification 1700000000000 (x0a, xff, x3c)
              (CreateMtn (makeId 1700000000000 (x0a, xff, x3c)) checkout1)
              (WebhookMtn (JObj [("payment_id", JStr (makeId 1700000000000 (x0a, xff, x3c)));
                                 ("result", JStr "Completed")]))
              checkout1
              (JObj [("payment_id", JStr (makeId 1700000000000 (x0a, xff, x3c)));
                     ("result", JStr "Completed")])
              "completed" (Store [pay1] []))
    as (r & o & H1 & _ & _ & _ & H5 & _ & _ & H8 & _).
  - right; reflexivity.
  - right; reflexivity.
  - reflexivity.
  - reflexivity.
  - reflexivity.
  - reflexivity.
  - reflexivity.
  - reflexivity.
  - exists r, o. split; [exact H1|]. split; [exact H5 | exact H8].
Defined.

(** ** Mobile money: answers *)





(** ** Stripe: the amount *)

(** Signs in double arithmetic. *)

(** Not below zero, read off the sign bit. *)
Lemma not_negative_spec (x : float) :
  not_negative x <->
  match Prim2SF x with
  | S754_infinity true | S754_finite true _ _ => False
  | _ => True
  end.
Proof.
  unfold not_negative. rewrite FloatAxioms.ltb_spec.
  change (Prim2SF 0) with (S754_zero false). unfold SFltb, SFcompare.
  destruct (Prim2SF x) as [s|s| |s m e]; try destruct s; cbn;
    split; auto; try discriminate; intros [].
Qed.

Lemma round_aux_sign (m e : Z) (l : location) :
  match binary_round_aux prec emax false m e l with
  | S754_infinity true | S754_finite true _ _ => False
  | _ => True
  end.
Proof.
  unfold binary_round_aux.
  destruct (shr_fexp prec emax m e l) as [mrs' e'].
  destruct (shr_fexp prec emax _ e' loc_Exact) as [mrs'' e''].
  destruct (shr_m mrs''); auto.
  destruct (e'' <=? emax - prec)%Z; auto.
Qed.

Lemma round_sign (m : positive) (e : Z) :
  match binary_round prec emax false m e with
  | S754_infinity true | S754_finite true _ _ => False
  | _ => True
  end.
Proof.
  unfold binary_round. destruct (shl_align m e _) as [mz ez]. apply round_aux_sign.
Qed.

Lemma mul_not_negative (x y : float) :
  not_negative x -> not_negative y -> not_negative (x * y).
Proof.
  rewrite !not_negative_spec, FloatAxioms.mul_spec. unfold SF64mul, SFmul.
  destruct (Prim2SF x) as [sx|sx| |sx mx ex], (Prim2SF y) as [sy|sy| |sy my ey];
    try destruct sx; try destruct sy; cbn [xorb]; try tauto.
  intros _ _. apply round_aux_sign.
Qed.

Lemma add_not_negative (x y : float) :
  not_negative x -> not_negative y -> not_negative (x + y).
Proof.
  rewrite !not_negative_spec, FloatAxioms.add_spec. unfold SF64add, SFadd.
  destruct (Prim2SF x) as [sx|sx| |sx mx ex], (Prim2SF y) as [sy|sy| |sy my ey];
    try destruct sx; try destruct sy; try tauto.
  intros _ _. cbv zeta. unfold binary_normalize, cond_Zopp.
  destruct (shl_align mx ex _) as [a ?], (shl_align my ey _) as [b ?].
  cbn [fst Z.add]. apply round_sign.
Qed.

Lemma of_uint63_not_negative (n : PrimInt63.int) : not_negative (of_uint63 n).
Proof.
  rewrite not_negative_spec, FloatAxioms.of_uint63_spec. unfold binary_normalize.
  destruct (Uint63.to_Z n) as [|p|p] eqn:E; auto.
  - apply round_sign.
  - destruct (Uint63.to_Z_bounded n) as [H _]. rewrite E in H. lia.
Qed.

Lemma Math_round_not_negative (x : float) :
  not_negative x -> not_negative (Math_round x).
Proof.
  intros H. unfold Math_round.
  destruct (Prim2SF x) as [s|s| |s m e] eqn:E; auto.
  destruct (0 <=? e)%Z; auto.
  destruct s; [|apply of_uint63_not_negative].
  apply not_negative_spec in H. rewrite E in H. destruct H.
Qed.

Lemma totalUSD_not_negative (items : list line_item) :
  Forall (fun i => not_negative (price_of i) /\ not_negative (qty_of i)) items ->
  not_negative (totalUSD items).
Proof.
  unfold totalUSD. intros H.
  assert (G : forall a, not_negative a ->
            not_negative
              (fold_left (fun s i => (s + price_of i * qty_of i)%float) items a)).
  { induction H as [|i items [Hp Hq] _ IH]; intros a Ha; cbn [fold_left];
      [exact Ha|].
    apply IH. apply add_not_negative; [exact Ha|].
    now apply mul_not_negative. }
  apply G. reflexivity.
Qed.

(** X15.  A cart without negative prices or quantities is never charged a
    negative amount (for a rate that is not negative): the amount of the
    transaction checkout opens is not below 0. *)
Theorem charge_is_not_negative (GHS_RATE : float)
    (create : intent_params -> intent_result)
    (stringify : list line_item -> string)
    (body : checkout_body) (items : list line_item) :
  cart body = CartArray items ->
  not_negative GHS_RATE ->
  Forall (fun i => not_negative (price_of i) /\ not_negative (qty_of i)) items ->
  Forall (fun p => not_negative (ip_amount p))
         (create_payment_intent GHS_RATE create stringify body).2.
Proof.
  intros Hc Hr Hitems. unfold create_payment_intent. rewrite Hc.
  destruct items as [|i items]; [constructor|].
  assert (Hamount :
    not_negative (toSmallestUnit GHS_RATE (totalUSD (i :: items))
                    (match currency body with Some x => x | None => "usd" end))).
  { assert (Ht := totalUSD_not_negative (i :: items) Hitems).
    assert (H100 : not_negative 100) by reflexivity.
    unfold toSmallestUnit.
    destruct (String.eqb _ "ghs"); apply Math_round_not_negative.
    - apply mul_not_negative; [|exact H100]. now apply mul_not_negative.
    - now apply mul_not_negative. }
  destruct (create _); cbn [snd]; constructor; auto.
Qed.

Lemma charge_is_not_negative_witness :
  Forall (fun p => not_negative (ip_amount p))
         (create_payment_intent 15 stub_create stub_stringify
            (body_of example_cart (Some "ghs"))).2.
Proof.
  apply (charge_is_not_negative 15 stub_create stub_stringify
           (body_of example_cart (Some "ghs")) example_cart).
  - reflexivity.
  - reflexivity.
  - repeat constructor.
Defined.

(** X16.  Which currency is charged: checkout passes Stripe ['ghs'] only
    when the body's currency is exactly ['ghs'] and ['usd'] in every other
    case, while the rate is applied whenever the currency lowercases to
    'ghs'.  So a currency such as ['GHS'] is charged the converted amount
    under ['usd'], and the metadata keeps the currency as it was sent. *)
Theorem checkout_currency (GHS_RATE : float)
    (create : intent_params -> intent_result)
    (stringify : list line_item -> string)
    (body : checkout_body) (items : list line_item) (c : string) :
  cart body = CartArray items -> items <> [] ->
  currency body = Some c ->
  exists p,
    (create_payment_intent GHS_RATE create stringify body).2 = [p] /\
    (ip_currency p = "ghs" \/ ip_currency p = "usd") /\
    (ip_currency p = "ghs" <-> c = "ghs") /\
    m_currency (ip_metadata p) = (if String.eqb c "" then "usd" else c) /\
    (toLowerCase c = "ghs" -> c <> "ghs" ->
     ip_currency p = "usd" /\
     ip_amount p = Math_round (totalUSD items * GHS_RATE * 100)%float).
Proof.
  intros Hc Hne Hcur. unfold create_payment_intent. rewrite Hc, Hcur.
  destruct items as [|i items]; [congruence|].
  eexists. split; [destruct (create _); reflexivity|].
  cbn [ip_currency ip_metadata m_currency ip_amount str_or].
  destruct (String.eqb_spec c "ghs") as [-> | Hn].
  - split; [now left|]. split; [tauto|]. split; [reflexivity|]. congruence.
  - split; [now right|]. split; [split; [discriminate | contradiction]|].
    split; [reflexivity|].
    intros Hl _. split; [reflexivity|].
    unfold toSmallestUnit. now rewrite Hl.
Qed.

Lemma checkout_currency_witness :
  exists p,
    (create_payment_intent 15 stub_create stub_stringify
       (body_of example_cart (Some "GHS"))).2 = [p] /\
    ip_currency p = "usd" /\ ip_amount p = 105000%float.
Proof.
  destruct (checkout_currency 15 stub_create stub_stringify
              (body_of example_cart (Some "GHS")) example_cart "GHS")
    as (p & H1 & _ & _ & _ & H5).
  - reflexivity.
  - discriminate.
  - reflexivity.
  - exists p. split; [exact H1|].
    destruct H5 as [H5 H6]; [reflexivity | discriminate |].
    split; [exact H5|]. rewrite H6. vm_compute. reflexivity.
Defined.

(** ** Stripe: the webhook *)

Section StripeWebhook.

Variables (GHS_RATE : float) (secret : option string)
  (signature_valid : string -> option string -> string -> bool)
  (parse_event : string -> option event)
  (parse_cart : string -> option (list line_item)).

Lemma handle_event_shape (insert_ok : list order -> order -> bool)
    (e : event) (orders : list order) :
  (handle_event GHS_RATE parse_cart insert_ok e orders).1 = orders \/
  exists pi o,
    handle_event GHS_RATE parse_cart insert_ok e orders = ((orders ++ [o])%list, received) /\
    ev_type e = "payment_intent.succeeded" /\ ev_object e = Some pi /\
    insert_ok orders o = true /\
    o_status o = "paid" /\ stripe_payment_intent o = pi_id pi /\
    user_email o = str_or (pi_email pi) "guest".
Proof.
  unfold handle_event.
  destruct (String.eqb_spec (ev_type e) "payment_intent.succeeded") as [Ht|]; [|now left].
  destruct (ev_object e) as [pi|]; [|now left].
  destruct (match pi_cart pi with
            | Some c => if String.eqb c "" then Some [] else parse_cart c
            | None => Some []
            end) as [cart|]; [|now left].
  cbv zeta.
  destruct (insert_ok orders _) eqn:Hok; [|now left].
  right. eexists pi, _. repeat split; auto.
Qed.

Lemma handle_event_answer (ok1 ok2 : list order -> order -> bool)
    (e : event) (orders : list order) :
  (handle_event GHS_RATE parse_cart ok1 e orders).2
  = (handle_event GHS_RATE parse_cart ok2 e orders).2.
Proof.
  unfold handle_event.
  destruct (String.eqb (ev_type e) "payment_intent.succeeded"); [|reflexivity].
  destruct (ev_object e) as [pi|]; [|reflexivity].
  destruct (match pi_cart pi with
            | Some c => if String.eqb c "" then Some [] else parse_cart c
            | None => Some []
            end) as [cart|]; [|reflexivity].
  cbv zeta. destruct (ok1 orders _), (ok2 orders _); reflexivity.
Qed.

Lemma webhook_cases (insert_ok : list order -> order -> bool)
    (body : jsval) (sig : option string) (orders : list order) :
  (exists r, webhook GHS_RATE secret signature_valid parse_event parse_cart
                     insert_ok body sig orders = (orders, r) /\
             status_code r = 400) \/
  (exists e, parse_event (to_string body) = Some e /\
             webhook GHS_RATE secret signature_valid parse_event parse_cart
                     insert_ok body sig orders
             = handle_event GHS_RATE parse_cart insert_ok e orders).
Proof.
  unfold webhook, constructEvent.
  destruct (secret_missing secret).
  - destruct (parse_event (to_string body)) as [e|]; [right; eauto | left; eauto].
  - destruct (signature_valid (to_string body) sig _); [|left; eauto].
    destruct (parse_event (to_string body)) as [e|]; [right; eauto | left; eauto].
Qed.

(** X17.  The Stripe webhook only ever appends to [orders], one row at
    most: either the table is as it was, or it has one more row, of status
    ['paid'], carrying the id of the payment intent of a
    [payment_intent.succeeded] event parsed from the string conversion of
    the body, and the answer is 200.  An answer of 400 or 500 comes with no change. *)
Theorem stripe_webhook_appends_one_paid_order
    (insert_ok : list order -> order -> bool)
    (body : jsval) (sig : option string) (orders : list order) :
  ((webhook GHS_RATE secret signature_valid parse_event parse_cart insert_ok
            body sig orders).1 = orders \/
   exists e pi o,
     webhook GHS_RATE secret signature_valid parse_event parse_cart insert_ok
             body sig orders = ((orders ++ [o])%list, received) /\
     parse_event (to_string body) = Some e /\
     ev_type e = "payment_intent.succeeded" /\ ev_object e = Some pi /\
     o_status o = "paid" /\ stripe_payment_intent o = pi_id pi) /\
  (status_code (webhook GHS_RATE secret signature_valid parse_event parse_cart
                        insert_ok body sig orders).2 <> 200 ->
   (webhook GHS_RATE secret signature_valid parse_event parse_cart insert_ok
            body sig orders).1 = orders).
Proof.
  destruct (webhook_cases insert_ok body sig orders) as [(r & -> & Hr) | (e & Hp & ->)].
  - split; [now left | reflexivity].
  - destruct (handle_event_shape insert_ok e orders)
      as [H | (pi & o & H & Ht & Ho & _ & Hs & Hi & _)].
    + split; [now left | now intros _].
    + rewrite H. split; [|intros Hn; now destruct Hn].
      right. exists e, pi, o. repeat split; auto.
Qed.

(** X18.  Stripe is never told about a storage failure: the answer of the
    webhook does not depend on whether the orders table takes the row (an
    insert the table refuses is logged and the event acknowledged with
    200 all the same), and a refused row leaves the table as it was. *)
Theorem stripe_webhook_answer_ignores_storage
    (ok1 ok2 : list order -> order -> bool)
    (body : jsval) (sig : option string) (orders : list order) :
  (webhook GHS_RATE secret signature_valid parse_event parse_cart ok1
           body sig orders).2
  = (webhook GHS_RATE secret signature_valid parse_event parse_cart ok2
             body sig orders).2 /\
  ((forall o, ok1 orders o = false) ->
   (webhook GHS_RATE secret signature_valid parse_event parse_cart ok1
            body sig orders).1 = orders).
Proof.
  split.
  - unfold webhook.
    destruct (secret_missing secret).
    + destruct (parse_event (to_string body)); [apply handle_event_answer | reflexivity].
    + destruct (constructEvent _ _ _ _ _); [apply handle_event_answer | reflexivity].
  - intros Hno.
    destruct (webhook_cases ok1 body sig orders) as [(r & -> & _) | (e & _ & ->)];
      [reflexivity|].
    destruct (handle_event_shape ok1 e orders)
      as [H | (pi & o & _ & _ & _ & Hok & _)]; [exact H|].
    rewrite Hno in Hok. discriminate.
Qed.

End StripeWebhook.

(** ** The minimal Stripe server *)

(** X22.  The minimal [POST /create-payment-intent] forwards what it is
    given: it answers 400 and calls Stripe not at all exactly when [amount]
    or [currency] is missing or falsy; otherwise it calls Stripe once, with
    the body's amount and currency unchanged (no conversion, no rounding),
    and answers 200 with the client secret or 500 with Stripe's message. *)
Theorem minimal_checkout_forwards
    (create : jsval -> jsval -> intent_result) (body : jsval) :
  (status_code (Minimal.create_payment_intent create body).1 = 400 <->
   (truthy (get body "amount") && truthy (get body "currency"))%bool = false) /\
  ((truthy (get body "amount") && truthy (get body "currency"))%bool = false ->
   (Minimal.create_payment_intent create body).2 = []) /\
  (forall a c, get body "amount" = Some a -> get body "currency" = Some c ->
     (truthy (Some a) && truthy (Some c))%bool = true ->
     (Minimal.create_payment_intent create body).2 = [(a, c)] /\
     (Minimal.create_payment_intent create body).1 =
       match create a c with
       | Created client_secret _ =>
           Response 200 (Json (JObj [("clientSecret", JStr client_secret)]))
       | Rejected message => MoMo.json_error 500 message
       end).
Proof.
  unfold Minimal.create_payment_intent.
  destruct (truthy (get body "amount")) eqn:Ha, (truthy (get body "currency")) eqn:Hc;
    cbn [negb orb andb].
  2,3,4: split; [split; [reflexivity | reflexivity]|];
         (split; [reflexivity|]);
         intros a c Ea Ec H; rewrite Ea, Ec in *; rewrite Ha, Hc in H; discriminate.
  split.
  - split; [|discriminate]. cbv zeta. destruct (create _ _); discriminate.
  - split; [discriminate|].
    intros a c Ea Ec _. rewrite Ea, Ec. cbn [or_null fst snd].
    destruct (create a c); split; reflexivity.
Qed.

